(** * TrueBackup: usage accounting and quota enforcement

    A shallow embedding of the accounting core of the TrueBackup backend:
    the stored procedures of [database/schema.sql]
    ([recalculate_client_storage], [get_client_monthly_egress],
    [record_egress], [reset_monthly_egress]) and the request handlers of
    [src/controllers/file.controller.js] and of the client controller
    ([createFolder], [getUploadUrl], [confirmUpload], [getDownloadUrl],
    [markAlertRead], [dismissAlert]), with [generateS3Key] of the S3 service.

    Conventions.
    - A table whose rows are only addressed through predicates is a list of
      rows, in insertion order; a table read and written through its unique
      key ([egress_usage] by (client_id, month_year), [system_settings] by
      key) is a finite map. Columns that the modelled code neither reads nor
      sets are left out of the rows; where a statement names a column without
      its table, the column lists of the tables are those of the DDL.
    - An id ([CHAR(36)]) is compared by the queries, the unique keys and the
      foreign keys under the collation of the database,
      [utf8mb4_unicode_ci], which does not tell upper from lower case. A
      value of [uuid] is an id up to that comparison: texts that the
      collation identifies are one [uuid], for the ids stored in rows and for
      the ids that a request carries alike, and [=] on [uuid] is the
      comparison that the statements make. No modelled code reads an id as a
      text.
    - Texts are sequences of ASCII characters. [VARCHAR(n)] holds [n]
      characters and [TEXT] 65,535 bytes; a longer value is rejected (strict
      SQL mode), as is an integer outside [BIGINT].
    - Every statement commits on its own: the handlers modelled here open no
      transaction, so what a procedure wrote before a statement of it failed
      stays written.
    - A [DECIMAL(p,s)] value is the integer [v] standing for [v / 10^s].
      Arithmetic on exact values is exact; a value is rounded, half away
      from zero, when it is assigned to a [DECIMAL(p,s)] variable or column,
      and the assignment fails when the rounded value does not fit (strict
      SQL mode, the server default).
    - A JavaScript number is an IEEE 754 binary64 value ([spec_float] with
      precision 53 and maximal exponent 1024), with the operations of the
      standard library's specification of floating-point arithmetic.
    - [NOW()], [UUID()] and [uuidv4()] are arguments of the operation that
      evaluates them; the ids they give are taken to be new, so no insert
      fails on its primary key.
    - The S3 client is outside the model: a presigned-URL call is a function
      that answers or throws. *)

From Stdlib Require Import ZArith Lia Bool.
From Stdlib Require Import Floats.SpecFloat Ascii.
From stdpp Require Import gmap strings list fin_maps.

Local Open Scope Z_scope.

(** ** Exact-value arithmetic of the database *)

(** The integer nearest to [n / d] for [0 < d], ties away from zero. *)
Definition round_half_away (n d : Z) : Z :=
  Z.sgn n * ((2 * Z.abs n + d) / (2 * d)).

(** Assigning the exact quotient [n / d] to a [DECIMAL(p,s)] target: the
    stored integer is [n / d * 10^s] rounded; [None] is the SQL error
    (division by zero, or out of range value). *)
Definition to_decimal (p s : Z) (n d : Z) : option Z :=
  if d =? 0 then None
  else
    let v := round_half_away (Z.sgn d * n * 10 ^ s) (Z.abs d) in
    if Z.abs v <? 10 ^ p then Some v else None.

(** [1024 * 1024 * 1024] *)
Definition GiB : Z := 1024 * 1024 * 1024.

(** ** Dates *)

(** A [DATETIME]; [dt_time] counts the seconds since midnight. *)
Record datetime : Type := mk_datetime
  { dt_year : Z; dt_month : Z; dt_day : Z; dt_time : Z }.

(** [a < b] on [DATETIME] values, field by field. *)
Definition dt_ltb (a b : datetime) : bool :=
  (dt_year a <? dt_year b)
  || ((dt_year a =? dt_year b)
      && ((dt_month a <? dt_month b)
          || ((dt_month a =? dt_month b)
              && ((dt_day a <? dt_day b)
                  || ((dt_day a =? dt_day b) && (dt_time a <? dt_time b)))))).

(** [a >= b] *)
Definition dt_geb (a b : datetime) : bool := negb (dt_ltb a b).

(** [DATE_FORMAT(NOW(), '%Y-%m')]: the key of a calendar month. *)
Definition month_key : Type := (Z * Z)%type.
Definition date_format_Ym (now : datetime) : month_key :=
  (dt_year now, dt_month now).

(** [DATE_FORMAT(NOW(), '%Y-%m-01')] and
    [DATE_FORMAT(NOW(), '%Y-%m-01 00:00:00')], compared with a [DATETIME]:
    the first instant of the current month. *)
Definition date_format_Ym01 (now : datetime) : datetime :=
  mk_datetime (dt_year now) (dt_month now) 1 0.

(** ** Tables *)

(** An id, up to the comparison of the column's collation (see the
    conventions above). *)
Definition uuid : Type := string.

Inductive client_status : Type := active | suspended.
Inductive file_type : Type := file | folder.
Inductive alert_kind : Type :=
  egress_warning | egress_limit | storage_warning | storage_limit.

#[global] Instance client_status_eq_dec : EqDecision client_status.
Proof. solve_decision. Defined.
#[global] Instance file_type_eq_dec : EqDecision file_type.
Proof. solve_decision. Defined.
#[global] Instance alert_kind_eq_dec : EqDecision alert_kind.
Proof. solve_decision. Defined.
#[global] Instance datetime_eq_dec : EqDecision datetime.
Proof. solve_decision. Defined.

(** [clients]; the four quantities are [DECIMAL(10,2)], in hundredths of a
    GB. *)
Module Clients.
Record row : Type := mk
    { id : uuid;
      user_id : uuid;
      storage_quota_gb : Z;
      storage_used_gb : Z;
      egress_used_gb : Z;
      egress_free_limit_gb : Z;
      status : client_status }.

(** The columns that [CREATE TABLE clients] declares. *)
Definition columns : list string :=
    ["id"; "user_id"; "name"; "email"; "company"; "storage_quota_gb";
     "storage_used_gb"; "egress_used_gb"; "egress_free_limit_gb"; "status";
     "bucket_name"; "folder_prefix"; "created_at"; "last_active_at";
     "updated_at"]%string.
End Clients.

(** [egress_usage] is held as a map (see [DB]). *)
Module EgressUsage.
(** The columns that [CREATE TABLE egress_usage] declares. *)
Definition columns : list string :=
    ["id"; "client_id"; "month_year"; "egress_used_gb"; "created_at";
     "updated_at"]%string.
End EgressUsage.

(** [client_storage_config] *)
Module StorageConfig.
Record row : Type := mk
    { client_id : uuid;
      bucket_name : string;
      endpoint : string;
      region : string;
      access_key_id : string;
      secret_access_key : string;
      bucket_prefix : option string;
      is_verified : bool }.
End StorageConfig.

(** [files] *)
Module Files.
Record row : Type := mk
    { id : uuid;
      client_id : uuid;
      name : string;
      size_bytes : Z;
      type : file_type;
      mime_type : option string;
      path : string;
      parent_id : option uuid;
      s3_key : option string;
      s3_etag : option string;
      deleted_at : option datetime }.
End Files.

(** [alerts]; the table has no unique key besides [id]. *)
Module Alerts.
Record row : Type := mk
    { id : uuid;
      client_id : uuid;
      alert_type : alert_kind;
      message : string;
      threshold_percent : option Z;
      is_read : bool;
      created_at : datetime }.

(** The columns that [CREATE TABLE alerts] declares. *)
Definition columns : list string :=
    ["id"; "client_id"; "alert_type"; "message"; "threshold_percent";
     "is_read"; "created_at"]%string.
End Alerts.

(** [activity_logs] *)
Module ActivityLogs.
Record row : Type := mk
    { user_id : option uuid;
      user_name : string;
      user_role : string;
      action : string;
      details : string;
      resource_id : option uuid }.
End ActivityLogs.

(** [download_history] *)
Module DownloadHistory.
Record row : Type := mk
    { client_id : uuid;
      file_id : uuid;
      file_name : string;
      file_size_bytes : Z }.
End DownloadHistory.

(** What a query hands to a handler for a value of a [JSON] column, as far
    as the handlers tell values apart: a string, a boolean, or anything
    else. Whether the JSON document [true] arrives as the string ['true'] or
    as the boolean [true] is decided by the driver options set in
    [src/config/database.js], which lies outside this development. *)
Inductive js_value : Type :=
  | js_string (s : string)
  | js_boolean (b : bool)
  | js_other.

#[global] Instance js_value_eq_dec : EqDecision js_value.
Proof. solve_decision. Defined.

(** The database. [egress_usage] maps its unique key
    (client_id, month_year) to [egress_used_gb], a [DECIMAL(12,4)] in ten
    thousandths of a GB; [system_settings] maps a key to its value as a
    query returns it. *)
Record DB : Type := mk_DB
  { clients : list Clients.row;
    client_storage_config : list StorageConfig.row;
    files : list Files.row;
    egress_usage : gmap (uuid * month_key) Z;
    alerts : list Alerts.row;
    system_settings : gmap string js_value;
    activity_logs : list ActivityLogs.row;
    download_history : list DownloadHistory.row }.

Definition with_clients (v : list Clients.row) (db : DB) : DB :=
  mk_DB v (client_storage_config db) (files db) (egress_usage db) (alerts db)
        (system_settings db) (activity_logs db) (download_history db).
Definition with_files (v : list Files.row) (db : DB) : DB :=
  mk_DB (clients db) (client_storage_config db) v (egress_usage db) (alerts db)
        (system_settings db) (activity_logs db) (download_history db).
Definition with_egress_usage (v : gmap (uuid * month_key) Z) (db : DB) : DB :=
  mk_DB (clients db) (client_storage_config db) (files db) v (alerts db)
        (system_settings db) (activity_logs db) (download_history db).
Definition with_alerts (v : list Alerts.row) (db : DB) : DB :=
  mk_DB (clients db) (client_storage_config db) (files db) (egress_usage db) v
        (system_settings db) (activity_logs db) (download_history db).
Definition with_activity_logs (v : list ActivityLogs.row) (db : DB) : DB :=
  mk_DB (clients db) (client_storage_config db) (files db) (egress_usage db)
        (alerts db) (system_settings db) v (download_history db).
Definition with_download_history (v : list DownloadHistory.row) (db : DB) : DB :=
  mk_DB (clients db) (client_storage_config db) (files db) (egress_usage db)
        (alerts db) (system_settings db) (activity_logs db) v.

(** ** Stored procedures *)

Inductive sql_error : Type :=
  | ER_OUT_OF_RANGE
  | ER_DIVISION_BY_ZERO
  | ER_NO_REFERENCED_ROW
  | ER_BAD_FIELD (column : string)
  | ER_NON_UNIQ_ERROR (column : string)
  | ER_DATA_TOO_LONG (column : string).

(** What a statement or a [CALL] leaves: the error that stopped it, if any,
    and the database. The statements of a procedure commit one by one, so
    the writes made before an error stay. *)
Definition sql_result : Type := (option sql_error * DB)%type.

(** The rows that [recalculate_client_storage] sums:
    [client_id = p_client_id AND type = 'file' AND deleted_at IS NULL]. *)
Definition counted (p_client_id : uuid) (f : Files.row) : bool :=
  bool_decide (Files.client_id f = p_client_id)
  && bool_decide (Files.type f = file)
  && bool_decide (Files.deleted_at f = None).

(** [COALESCE(SUM(size_bytes), 0)] over the counted rows. *)
Definition sum_size_bytes (p_client_id : uuid) (fs : list Files.row) : Z :=
  foldr (fun f acc => Files.size_bytes f + acc) 0
        (List.filter (counted p_client_id) fs).

Definition set_storage_used (p_client_id : uuid) (v : Z) (c : Clients.row)
  : Clients.row :=
  if bool_decide (Clients.id c = p_client_id)
  then Clients.mk (Clients.id c) (Clients.user_id c) (Clients.storage_quota_gb c)
                  v (Clients.egress_used_gb c) (Clients.egress_free_limit_gb c)
                  (Clients.status c)
  else c.

(** [recalculate_client_storage]: the sum, divided by 2^30, is assigned to
    [total_size_gb DECIMAL(10,2)], then written to the client's row. *)
Definition recalculate_client_storage (p_client_id : uuid) (db : DB)
  : sql_result :=
  match to_decimal 10 2 (sum_size_bytes p_client_id (files db)) GiB with
  | None => (Some ER_OUT_OF_RANGE, db)
  | Some total_size_gb =>
      (None, with_clients (map (set_storage_used p_client_id total_size_gb)
                               (clients db)) db)
  end.

(** [get_client_monthly_egress] *)
Definition get_client_monthly_egress (now : datetime) (p_client_id : uuid)
    (db : DB) : Z :=
  default 0 (egress_usage db !! (p_client_id, date_format_Ym now)).

(** The [INSERT ... ON DUPLICATE KEY UPDATE egress_used_gb = egress_used_gb +
    v_gb] of [record_egress] on the unique key (client_id, month_year). *)
Definition upsert_egress (key : uuid * month_key) (v_gb : Z)
    (eu : gmap (uuid * month_key) Z) : option (gmap (uuid * month_key) Z) :=
  match eu !! key with
  | None => Some (<[key := v_gb]> eu)
  | Some e =>
      if Z.abs (e + v_gb) <? 10 ^ 12 then Some (<[key := (e + v_gb)]> eu)
      else None
  end.

(** The [NOT EXISTS (SELECT 1 FROM alerts WHERE ...)] test of
    [record_egress], without the negation. *)
Definition alert_matches (p_client_id : uuid) (kind : alert_kind) (thr : Z)
    (since : datetime) (a : Alerts.row) : bool :=
  bool_decide (Alerts.client_id a = p_client_id)
  && bool_decide (Alerts.alert_type a = kind)
  && bool_decide (Alerts.threshold_percent a = Some thr)
  && dt_geb (Alerts.created_at a) since.

Definition alert_exists (p_client_id : uuid) (kind : alert_kind) (thr : Z)
    (since : datetime) (al : list Alerts.row) : bool :=
  existsb (alert_matches p_client_id kind thr since) al.

(** [INSERT INTO alerts (client_id, alert_type, message, threshold_percent)];
    [id], [is_read] and [created_at] take their defaults. *)
Definition new_alert (now : datetime) (new_id : uuid) (p_client_id : uuid)
    (kind : alert_kind) (msg : string) (thr : Z) : Alerts.row :=
  Alerts.mk new_id p_client_id kind msg (Some thr) false now.

Definition insert_alert (now : datetime) (new_id : uuid) (p_client_id : uuid)
    (kind : alert_kind) (msg : string) (thr : Z) (db : DB) : DB :=
  with_alerts (alerts db ++ [new_alert now new_id p_client_id kind msg thr]) db.

(** [v_usage_percent DECIMAL(5,2)], in hundredths of a percent:
    [(v_current_egress / v_free_limit) * 100] with the egress in ten
    thousandths and the limit in hundredths of a GB. *)
Definition usage_percent (v_current_egress v_free_limit : Z) : option Z :=
  to_decimal 5 2 (v_current_egress * 100 * 100) (v_free_limit * 10000).

(** The threshold cascade of [record_egress]. *)
Definition check_thresholds (now : datetime) (new_id : uuid)
    (p_client_id : uuid) (v_usage_percent : Z) (db : DB) : DB :=
  if 100 * 100 <=? v_usage_percent then
    (* INSERT IGNORE: no unique key of [alerts] can reject the row *)
    insert_alert now new_id p_client_id egress_limit
      "You have exceeded your free egress limit!" 100 db
  else if 90 * 100 <=? v_usage_percent then
    if alert_exists p_client_id egress_warning 90 (date_format_Ym01 now)
         (alerts db)
    then db
    else insert_alert now new_id p_client_id egress_warning
           "You have used 90% of your free egress limit" 90 db
  else if 80 * 100 <=? v_usage_percent then
    if alert_exists p_client_id egress_warning 80 (date_format_Ym01 now)
         (alerts db)
    then db
    else insert_alert now new_id p_client_id egress_warning
           "You have used 80% of your free egress limit" 80 db
  else db.

(** How a statement of a stored procedure reads a name that its select list
    gives without a table: a variable or parameter of the procedure of that
    name comes first; otherwise the name must be a column of exactly one
    table of the [FROM] clause. [None]: the name is resolved. *)
Definition resolve_column (name : string) (locals : list string)
    (from : list (list string)) : option sql_error :=
  if bool_decide (name ∈ locals) then None
  else
    match List.filter (fun cols => bool_decide (name ∈ cols)) from with
    | [] => Some (ER_BAD_FIELD name)
    | [_] => None
    | _ => Some (ER_NON_UNIQ_ERROR name)
    end.

(** The parameters and variables that [record_egress] declares. *)
Definition record_egress_locals : list string :=
  ["p_client_id"; "p_bytes"; "v_month_year"; "v_gb"; "v_current_egress";
   "v_free_limit"; "v_usage_percent"]%string.

(** [record_egress]. The client row found for the foreign key of
    [egress_usage] is the one the later [JOIN] reads. After the upsert,
    [SELECT egress_used_gb, c.egress_free_limit_gb INTO ... FROM egress_usage
    e JOIN clients c ...] names its first column without a table. *)
Definition record_egress (now : datetime) (new_id : uuid)
    (p_client_id : uuid) (p_bytes : Z) (db : DB) : sql_result :=
  let v_month_year := date_format_Ym now in
  match to_decimal 12 4 p_bytes GiB with
  | None => (Some ER_OUT_OF_RANGE, db)
  | Some v_gb =>
      match List.find (fun c => bool_decide (Clients.id c = p_client_id))
                      (clients db) with
      | None => (Some ER_NO_REFERENCED_ROW, db)
      | Some c =>
          match upsert_egress (p_client_id, v_month_year) v_gb
                              (egress_usage db) with
          | None => (Some ER_OUT_OF_RANGE, db)
          | Some eu =>
              let db1 := with_egress_usage eu db in
              match resolve_column "egress_used_gb" record_egress_locals
                      [EgressUsage.columns; Clients.columns] with
              | Some e => (Some e, db1)
              | None =>
                  let v_current_egress :=
                    default 0 (eu !! (p_client_id, v_month_year)) in
                  let v_free_limit := Clients.egress_free_limit_gb c in
                  if v_free_limit =? 0 then (Some ER_DIVISION_BY_ZERO, db1)
                  else
                    match usage_percent v_current_egress v_free_limit with
                    | None => (Some ER_OUT_OF_RANGE, db1)
                    | Some v_usage_percent =>
                        (None, check_thresholds now new_id p_client_id
                                                v_usage_percent db1)
                    end
              end
          end
      end
  end.




(** [UPDATE alerts SET <column> = TRUE WHERE id = ?]. The statement is
    rejected when [alerts] has no such column; [is_read] is the table's
    only [BOOLEAN] column. *)
Definition set_true (column : string) (a : Alerts.row) : Alerts.row :=
  if bool_decide (column = "is_read"%string)
  then Alerts.mk (Alerts.id a) (Alerts.client_id a) (Alerts.alert_type a)
                 (Alerts.message a) (Alerts.threshold_percent a) true
                 (Alerts.created_at a)
  else a.

Definition update_alerts_set_true (column : string) (alertId : uuid) (db : DB)
  : sql_result :=
  if bool_decide (column ∈ Alerts.columns) then
    (None,
     with_alerts
       (map (fun a => if bool_decide (Alerts.id a = alertId)
                      then set_true column a else a) (alerts db)) db)
  else (Some (ER_BAD_FIELD column), db).

(** ** JavaScript numbers *)

Definition number : Type := spec_float.

(** The number nearest to an integer (round to nearest, ties to even). *)
Definition Number (z : Z) : number := binary_normalize 53 1024 z 0 false.

Definition js_add : number -> number -> number := SFadd 53 1024.
Definition js_div : number -> number -> number := SFdiv 53 1024.
(** [a > b], [a >= b] and [a == b] on numbers *)
Definition js_gt (a b : number) : bool := SFltb b a.
Definition js_ge (a b : number) : bool := SFleb b a.
Definition js_eq (a b : number) : bool := SFeqb a b.

(** [parseFloat] of the text of a [DECIMAL] value of scale [s] held as the
    integer [v]: the number nearest to [v / 10^s]. Both [v] and [10^s] are
    below 2^53, so the correctly rounded quotient is that number. *)
Definition parseFloat (s : Z) (v : Z) : number :=
  js_div (Number v) (Number (10 ^ s)).

(** ** Request handlers *)

Inductive AppError : Type :=
  | CLIENT_NOT_FOUND
  | ACCOUNT_SUSPENDED
  | STORAGE_NOT_CONFIGURED
  | QUOTA_EXCEEDED
  | FILE_NOT_FOUND
  | DOWNLOAD_LIMIT_EXCEEDED
  | ALERT_NOT_FOUND
  | DatabaseError (e : sql_error)
  | StorageError.

Inductive outcome (A : Type) : Type :=
  | Ok (a : A)
  | Err (e : AppError).
Arguments Ok {A} a.
Arguments Err {A} e.

(** A handler runs against the database; what it wrote before it threw
    stays written. *)
Definition M (A : Type) : Type := DB -> outcome A * DB.

Definition ret {A} (a : A) : M A := fun db => (Ok a, db).
Definition throw {A} (e : AppError) : M A := fun db => (Err e, db).
Definition bind {A B} (m : M A) (k : A -> M B) : M B :=
  fun db => match m db with
            | (Ok a, db') => k a db'
            | (Err e, db') => (Err e, db')
            end.
(** [await query('SELECT ...')] *)
Definition select {A} (q : DB -> A) : M A := fun db => (Ok (q db), db).
(** [await query(...)] of a statement or a [CALL]; a rejected query throws. *)
Definition execute (stmt : DB -> sql_result) : M unit :=
  fun db => match stmt db with
            | (None, db') => (Ok tt, db')
            | (Some e, db') => (Err (DatabaseError e), db')
            end.
(** A statement that cannot fail in the model. *)
Definition update (f : DB -> DB) : M unit := fun db => (Ok tt, f db).

Notation "'do' x <- m ; k" := (bind m (fun x => k))
  (at level 10, x name, m at level 100, k at level 200, only parsing).
Notation "'run' m ; k" := (bind m (fun _ => k))
  (at level 10, m at level 100, k at level 200, only parsing).

(** [req.user] *)
Record session_user : Type := mk_user
  { uid : uuid; uname : string; uemail : string; urole : string }.

(** [activityService.logActivity]: it inserts a row and never throws. *)
Definition logActivity (u : session_user) (action details : string)
    (resourceId : option uuid) : M unit :=
  update (fun db =>
    with_activity_logs
      (activity_logs db
       ++ [ActivityLogs.mk (Some (uid u)) (uname u) (urole u) action details
             resourceId]) db).

(** [filePath.replace(/^\/+/, '')] *)
Fixpoint strip_leading_slashes (s : string) : string :=
  match s with
  | String "/"%char s' => strip_leading_slashes s'
  | _ => s
  end.

(** [text.replace(/\/+/g, '/')] *)
Fixpoint collapse_slashes (s : string) : string :=
  match s with
  | EmptyString => EmptyString
  | String "/"%char s' =>
      match s' with
      | String "/"%char _ => collapse_slashes s'
      | _ => String "/"%char (collapse_slashes s')
      end
  | String c s' => String c (collapse_slashes s')
  end.

(** [s3Service.generateS3Key] *)
Definition generateS3Key (bucketPrefix : option string) (filePath : string)
  : string :=
  let prefix := default ""%string bucketPrefix in
  let cleanPath := strip_leading_slashes filePath in
  if bool_decide (prefix = ""%string) then cleanPath
  else collapse_slashes (prefix +:+ "/" +:+ cleanPath).

(** [SELECT c.*, cs.* FROM clients c LEFT JOIN client_storage_config cs
    ON c.id = cs.client_id WHERE c.user_id = ?], first row. *)
Definition client_of_user (userId : uuid) (db : DB)
  : option (Clients.row * option StorageConfig.row) :=
  match List.find (fun c => bool_decide (Clients.user_id c = userId))
                  (clients db) with
  | None => None
  | Some c =>
      Some (c, List.find (fun cs => bool_decide
                                      (StorageConfig.client_id cs = Clients.id c))
                         (client_storage_config db))
  end.

(** [SELECT path FROM files WHERE id = ? AND client_id = ?], first row. *)
Definition parent_path (parentId clientId : uuid) (db : DB) : option string :=
  Files.path <$>
    List.find (fun f => bool_decide (Files.id f = parentId)
                        && bool_decide (Files.client_id f = clientId))
              (files db).

(** The client that a [JOIN clients c ON x.client_id = c.id] with
    [c.user_id = ?] pairs with a row of client [clientId]. *)
Definition owner (clientId userId : uuid) (db : DB) : option Clients.row :=
  List.find (fun c => bool_decide (Clients.id c = clientId)
                      && bool_decide (Clients.user_id c = userId))
            (clients db).

(** [settings[0]?.value === 'true'] for the key
    [block_downloads_on_overage]. *)
Definition blockOnOverage (db : DB) : bool :=
  bool_decide (system_settings db !! "block_downloads_on_overage"%string
               = Some (js_string "true")).

(** The rows of the first query of [getDownloadUrl]: the file, its client,
    [COALESCE(e.egress_used_gb, 0)] for the current month and the storage
    configuration of the [LEFT JOIN]. *)
Definition download_rows (now : datetime) (fileId userId : uuid) (db : DB)
  : list (Files.row * Clients.row * Z * option StorageConfig.row) :=
  omap (fun f =>
          if bool_decide (Files.id f = fileId)
             && bool_decide (Files.deleted_at f = None)
             && bool_decide (Files.type f = file)
          then
            match owner (Files.client_id f) userId db with
            | None => None
            | Some c =>
                Some (f, c, get_client_monthly_egress now (Clients.id c) db,
                      List.find (fun cs => bool_decide
                                   (StorageConfig.client_id cs = Clients.id c))
                                (client_storage_config db))
            end
          else None)
       (files db).

(** The rows of the first query of [confirmUpload]. *)
Definition confirm_rows (fileId userId : uuid) (db : DB) : list Files.row :=
  List.filter (fun f => bool_decide (Files.id f = fileId)
                        && bool_decide (is_Some (owner (Files.client_id f)
                                                       userId db)))
              (files db).

(** What [UPDATE files SET s3_etag = ? WHERE id = ?] makes of a row. *)
Definition set_etag (fileId : uuid) (etag : option string) (f : Files.row)
  : Files.row :=
  if bool_decide (Files.id f = fileId)
  then Files.mk (Files.id f) (Files.client_id f) (Files.name f)
                (Files.size_bytes f) (Files.type f) (Files.mime_type f)
                (Files.path f) (Files.parent_id f) (Files.s3_key f) etag
                (Files.deleted_at f)
  else f.

(** The rows of the ownership query of [markAlertRead] and [dismissAlert];
    the ids are compared as the query compares them. *)
Definition alert_rows (alertId userId : uuid) (db : DB) : list Alerts.row :=
  List.filter (fun a => bool_decide (Alerts.id a = alertId)
                        && bool_decide (is_Some (owner (Alerts.client_id a)
                                                       userId db)))
              (alerts db).

(** [fileSize / (1024 * 1024 * 1024)] *)
Definition fileSizeGB (fileSize : Z) : number :=
  js_div (Number fileSize) (Number GiB).

(** [parseFloat(client.storage_used_gb) + fileSizeGB] *)
Definition newStorageUsed (client : Clients.row) (fileSize : Z) : number :=
  js_add (parseFloat 2 (Clients.storage_used_gb client)) (fileSizeGB fileSize).

(** [!client.is_verified] on the row of the [LEFT JOIN], negated. *)
Definition verified (cs : option StorageConfig.row) : bool :=
  default false (StorageConfig.is_verified <$> cs).

(** The path and key that [getUploadUrl] builds. *)
Definition upload_path (fileName : string) (parentId : option uuid)
    (clientId : uuid) (db : DB) : string :=
  match parentId with
  | None => fileName
  | Some p =>
      match parent_path p clientId db with
      | Some pp => pp +:+ "/" +:+ fileName
      | None => fileName
      end
  end.

Definition upload_key (cs : option StorageConfig.row) (path fileName : string)
  : string :=
  generateS3Key (cs ≫= StorageConfig.bucket_prefix)
    (if bool_decide (path = ""%string) then fileName
     else path +:+ "/" +:+ fileName).

(** [INSERT INTO files (...) VALUES (?, ?, ?, ?, 'file', ?, ?, ?, ?)] *)
Definition new_file (new_id clientId : uuid) (fileName : string) (fileSize : Z)
    (mimeType path : string) (parentId : option uuid) (s3Key : string)
  : Files.row :=
  Files.mk new_id clientId fileName fileSize file (Some mimeType) path parentId
           (Some s3Key) None None.

(** The foreign key of [files.parent_id]: null, or the id of a row of
    [files], as the key compares ids. *)
Definition parent_exists (parentId : option uuid) (db : DB) : bool :=
  match parentId with
  | None => true
  | Some p => existsb (fun g => bool_decide (Files.id g = p)) (files db)
  end.

(** Does a text fit [VARCHAR(n)]; does it fit [TEXT]; does an integer fit
    [BIGINT]. *)
Definition fits_varchar (n : Z) (s : string) : bool :=
  Z.of_nat (String.length s) <=? n.
Definition fits_text (s : string) : bool :=
  Z.of_nat (String.length s) <=? 65535.
Definition fits_bigint (v : Z) : bool := (- 2 ^ 63 <=? v) && (v <? 2 ^ 63).

(** The first value of a new row of [files], in the order of the column
    list of the [INSERT], that its column cannot hold. The ids are 36
    characters long. *)
Definition files_row_error (f : Files.row) : option sql_error :=
  if negb (fits_varchar 500 (Files.name f)) then Some (ER_DATA_TOO_LONG "name")
  else if negb (fits_bigint (Files.size_bytes f)) then Some ER_OUT_OF_RANGE
  else if negb (default true (fits_varchar 255 <$> Files.mime_type f))
  then Some (ER_DATA_TOO_LONG "mime_type")
  else if negb (fits_text (Files.path f)) then Some (ER_DATA_TOO_LONG "path")
  else if negb (default true (fits_text <$> Files.s3_key f))
  then Some (ER_DATA_TOO_LONG "s3_key")
  else None.

(** The [INSERT INTO files], rejected when a value does not fit its column
    or when the foreign key of [parent_id] fails. *)
Definition insert_file (f : Files.row) (db : DB) : sql_result :=
  match files_row_error f with
  | Some e => (Some e, db)
  | None =>
      if parent_exists (Files.parent_id f) db
      then (None, with_files (files db ++ [f]) db)
      else (Some ER_NO_REFERENCED_ROW, db)
  end.

(** [UPDATE files SET s3_etag = ? WHERE id = ?]; [s3_etag] is
    [VARCHAR(255)], and the value is only assigned where a row matches. *)
Definition update_etag (fileId : uuid) (etag : string) (db : DB) : sql_result :=
  if existsb (fun f => bool_decide (Files.id f = fileId)) (files db)
     && negb (fits_varchar 255 etag)
  then (Some (ER_DATA_TOO_LONG "s3_etag"), db)
  else (None, with_files (map (set_etag fileId (Some etag)) (files db)) db).

Section Handlers.

(** The presigned-URL calls of [s3Service]; [None] when the call throws. *)
Variable s3_getUploadUrl :
  option StorageConfig.row -> string -> string -> Z -> option string.
Variable s3_getDownloadUrl :
  option StorageConfig.row -> option string -> option string.

(** [FileController.getUploadUrl]; the answer is
    [(uploadUrl, fileId, s3Key)]. [fileSize] is the integer that the route
    validated. *)
Definition getUploadUrl (new_id : uuid) (user : session_user)
    (fileName : string) (fileSize : Z) (mimeType : string)
    (parentId : option uuid) : M (string * uuid * string) :=
  do clients0 <- select (client_of_user (uid user)) ;
  match clients0 with
  | None => throw CLIENT_NOT_FOUND
  | Some (client, cs) =>
      if negb (bool_decide (Clients.status client = active))
      then throw ACCOUNT_SUSPENDED
      else if negb (verified cs)
      then throw STORAGE_NOT_CONFIGURED
      else
        if js_gt (newStorageUsed client fileSize)
                 (parseFloat 2 (Clients.storage_quota_gb client))
        then throw QUOTA_EXCEEDED
        else
          do path <- select (upload_path fileName parentId (Clients.id client)) ;
          let s3Key := upload_key cs path fileName in
          match s3_getUploadUrl cs s3Key mimeType fileSize with
          | None => throw StorageError
          | Some uploadUrl =>
              run execute (insert_file
                             (new_file new_id (Clients.id client) fileName
                                fileSize mimeType path parentId s3Key)) ;
              run logActivity user "file_upload_init"
                    ("Initiated upload: " +:+ fileName) (Some new_id) ;
              ret (uploadUrl, new_id, s3Key)
          end
  end.

(** [FileController.confirmUpload]. [etag] is the field of the request body.
    A request without the field hands [undefined] to the query wrapper of
    [src/config/database.js], which lies outside this development; the
    handler is modelled for requests that carry the field. *)
Definition confirmUpload (user : session_user) (fileId : uuid)
    (etag : string) : M unit :=
  do files0 <- select (confirm_rows fileId (uid user)) ;
  match head files0 with
  | None => throw FILE_NOT_FOUND
  | Some f =>
      run execute (update_etag fileId etag) ;
      run execute (recalculate_client_storage (Files.client_id f)) ;
      run logActivity user "file_upload_complete"
            ("Uploaded file: " +:+ Files.name f) (Some fileId) ;
      ret tt
  end.

(** [FileController.getDownloadUrl]; the answer is
    [(downloadUrl, fileName)]. *)
Definition getDownloadUrl (now : datetime) (new_id : uuid)
    (user : session_user) (fileId : uuid) : M (string * string) :=
  do files0 <- select (download_rows now fileId (uid user)) ;
  match head files0 with
  | None => throw FILE_NOT_FOUND
  | Some (f, c, egress_used_gb, cs) =>
      if negb (bool_decide (Clients.status c = active))
      then throw ACCOUNT_SUSPENDED
      else
        do block <- select blockOnOverage ;
        if block && js_ge (parseFloat 4 egress_used_gb)
                          (parseFloat 2 (Clients.egress_free_limit_gb c))
        then throw DOWNLOAD_LIMIT_EXCEEDED
        else
          match s3_getDownloadUrl cs (Files.s3_key f) with
          | None => throw StorageError
          | Some downloadUrl =>
              run execute (record_egress now new_id (Clients.id c)
                                         (Files.size_bytes f)) ;
              run update (fun db =>
                with_download_history
                  (download_history db
                   ++ [DownloadHistory.mk (Clients.id c) fileId (Files.name f)
                         (Files.size_bytes f)]) db) ;
              run logActivity user "file_download"
                    ("Downloaded file: " +:+ Files.name f) (Some fileId) ;
              ret (downloadUrl, Files.name f)
          end
  end.

End Handlers.

(** [ClientController.markAlertRead] *)
Definition markAlertRead (user : session_user) (alertId : uuid) : M unit :=
  do alerts0 <- select (alert_rows alertId (uid user)) ;
  if bool_decide (alerts0 = []) then throw ALERT_NOT_FOUND
  else
    run execute (update_alerts_set_true "is_read" alertId) ;
    ret tt.

(** [ClientController.dismissAlert] *)
Definition dismissAlert (user : session_user) (alertId : uuid) : M unit :=
  do alerts0 <- select (alert_rows alertId (uid user)) ;
  if bool_decide (alerts0 = []) then throw ALERT_NOT_FOUND
  else
    run execute (update_alerts_set_true "is_dismissed" alertId) ;
    ret tt.

(** [FileController.createFolder]; the answer is the id of the folder. The
    row takes the defaults of [size_bytes] (0), [s3_key] and [s3_etag]. *)
Definition createFolder (new_id : uuid) (user : session_user) (name : string)
    (parentId : option uuid) : M uuid :=
  do clients0 <- select (fun db =>
       List.find (fun c => bool_decide (Clients.user_id c = uid user))
                 (clients db)) ;
  match clients0 with
  | None => throw CLIENT_NOT_FOUND
  | Some client =>
      do path <- select (upload_path name parentId (Clients.id client)) ;
      run execute (insert_file
                     (Files.mk new_id (Clients.id client) name 0 folder None
                               path parentId None None None)) ;
      run logActivity user "folder_create" ("Created folder: " +:+ name)
            (Some new_id) ;
      ret new_id
  end.

(** ** Runs, reference definitions and sample data *)

(** Does a text begin with a slash; does it hold two slashes in a row. *)
Definition starts_with_slash (s : string) : bool :=
  match s with
  | String "/"%char _ => true
  | _ => false
  end.

Fixpoint has_double_slash (s : string) : bool :=
  match s with
  | EmptyString => false
  | String c s' =>
      (bool_decide (c = "/"%char) && starts_with_slash s')
      || has_double_slash s'
  end.

(** An S3 client whose download call throws. *)
Definition s3_down_fail (_ : option StorageConfig.row) (_ : option string)
  : option string := None.

(** The GB value that [record_egress] assigns to [v_gb DECIMAL(12,4)], in
    ten thousandths. *)
Definition egress_gb (p_bytes : Z) : Z := round_half_away (p_bytes * 10 ^ 4) GiB.

(** A series of [CALL record_egress] for one client, each with its time, the
    id of the alert it may insert and its byte count. An error of one call
    does not stop the next. *)
Fixpoint record_downloads (p_client_id : uuid)
    (calls : list (datetime * uuid * Z)) (db : DB) : DB :=
  match calls with
  | [] => db
  | (now, new_id, p_bytes) :: rest =>
      record_downloads p_client_id rest
        (snd (record_egress now new_id p_client_id p_bytes db))
  end.

(** How many alerts of a client, a kind and a threshold were created since
    a given instant. *)
Definition alert_count (p_client_id : uuid) (kind : alert_kind) (thr : Z)
    (since : datetime) (al : list Alerts.row) : nat :=
  length (List.filter (alert_matches p_client_id kind thr since) al).

(** The sum of the GB values that a series of calls adds. *)
Definition sum_egress_gb (calls : list (datetime * uuid * Z)) : Z :=
  foldr (fun call acc => egress_gb (snd call) + acc) 0 calls.

(** The byte count of a series of calls. *)
Definition sum_bytes (calls : list (datetime * uuid * Z)) : Z :=
  foldr (fun call acc => snd call + acc) 0 calls.

(** A series of download requests, each with its time, the id of the alert
    it may insert, the user and the file; the answers come in order. *)
Fixpoint download_requests
    (s3_getDownloadUrl : option StorageConfig.row -> option string
                         -> option string)
    (reqs : list (datetime * uuid * session_user * uuid)) (db : DB)
  : list (outcome (string * string)) * DB :=
  match reqs with
  | [] => ([], db)
  | (now, new_id, user, fileId) :: rest =>
      let '(r, db1) := getDownloadUrl s3_getDownloadUrl now new_id user fileId db in
      let '(rs, db2) := download_requests s3_getDownloadUrl rest db1 in
      (r :: rs, db2)
  end.

(** A download request that reaches the egress test with usage at or above
    the free limit: the file is found, its client is active, and the
    handler's comparison of the two parsed numbers holds. *)
Definition over_limit_request (db : DB)
    (req : datetime * uuid * session_user * uuid) : Prop :=
  let '(now, _, user, fileId) := req in
  exists f c e cs,
    head (download_rows now fileId (uid user) db) = Some (f, c, e, cs)
    /\ Clients.status c = active
    /\ js_ge (parseFloat 4 e) (parseFloat 2 (Clients.egress_free_limit_gb c))
       = true.

(** The sum that the data model of the specification describes: only files
    whose upload was confirmed ([s3_etag] set) are counted. *)
Definition sum_confirmed_bytes (p_client_id : uuid) (fs : list Files.row) : Z :=
  foldr (fun f acc => Files.size_bytes f + acc) 0
        (List.filter (fun f => counted p_client_id f
                               && bool_decide (Files.s3_etag f <> None)) fs).

Definition sample_user : session_user :=
  mk_user "u1" "Asha" "asha@example.com" "client".

Definition sample_client (quota used limit : Z) (st : client_status)
  : Clients.row :=
  Clients.mk "c1" "u1" quota used 0 limit st.

Definition sample_config (ok : bool) : StorageConfig.row :=
  StorageConfig.mk "c1" "backups" "s3.wasabisys.com" "us-east-1" "AK" "SK"
                   (Some "tenants/c1"%string) ok.

Definition sample_file (fid : uuid) (size : Z) (etag : option string)
    (deleted : option datetime) : Files.row :=
  Files.mk fid "c1" "report.pdf" size file (Some "application/pdf"%string)
           "report.pdf" None (Some "tenants/c1/report.pdf"%string) etag deleted.

Definition sample_alert (aid : uuid) (kind : alert_kind) (thr : Z)
    (read : bool) (at_ : datetime) : Alerts.row :=
  Alerts.mk aid "c1" kind "alert" (Some thr) read at_.

(** A database with one client, its storage configuration, and the given
    files, egress rows, alerts and settings. *)
Definition sample_db (c : Clients.row) (fs : list Files.row)
    (eu : gmap (uuid * month_key) Z) (al : list Alerts.row)
    (settings : gmap string js_value) : DB :=
  mk_DB [c] [sample_config true] fs eu al settings [] [].

Definition jan15 : datetime := mk_datetime 2026 1 15 36000.
Definition jan16 : datetime := mk_datetime 2026 1 16 100.
Definition nov20 : datetime := mk_datetime 2025 11 20 0.

(** S3 calls that always answer. *)
Definition s3_up_ok (_ : option StorageConfig.row) (key _ : string) (_ : Z)
  : option string := Some ("https://put/" +:+ key)%string.
Definition s3_down_ok (_ : option StorageConfig.row) (key : option string)
  : option string := Some ("https://get/" +:+ default "" key)%string.

(** * Verification *)

(** ** Rounding *)


Lemma round_half_away_nonneg (n d : Z) :
  0 <= n -> 0 < d -> 0 <= round_half_away n d.
Proof.
  intros Hn Hd. unfold round_half_away.
  assert (0 <= (2 * Z.abs n + d) / (2 * d)) by (apply Z.div_pos; lia).
  assert (0 <= Z.sgn n) by (apply Z.sgn_nonneg; lia). nia.
Qed.

Lemma to_decimal_GiB (p s n : Z) :
  to_decimal p s n GiB =
  if Z.abs (round_half_away (n * 10 ^ s) GiB) <? 10 ^ p
  then Some (round_half_away (n * 10 ^ s) GiB) else None.
Proof.
  unfold to_decimal. change (GiB =? 0) with false. cbv iota.
  change (Z.sgn GiB) with 1. change (Z.abs GiB) with GiB.
  replace (1 * n * 10 ^ s) with (n * 10 ^ s) by lia. reflexivity.
Qed.

(** ** Quota ledger: [recalculate_client_storage] *)


Lemma set_storage_used_id (cid : uuid) (v : Z) (c : Clients.row) :
  Clients.id (set_storage_used cid v c) = Clients.id c.
Proof. unfold set_storage_used. case_bool_decide; reflexivity. Qed.

Lemma set_storage_used_at (cid : uuid) (v : Z) (c : Clients.row) :
  Clients.id c = cid -> Clients.storage_used_gb (set_storage_used cid v c) = v.
Proof.
  intros H. unfold set_storage_used. rewrite bool_decide_eq_true_2 by exact H.
  reflexivity.
Qed.

Lemma recalculate_success (db : DB) (cid : uuid) :
  Z.abs (round_half_away (sum_size_bytes cid (files db) * 10 ^ 2) GiB) < 10 ^ 10 ->
  recalculate_client_storage cid db =
  (None,
   with_clients
     (map (set_storage_used cid
             (round_half_away (sum_size_bytes cid (files db) * 10 ^ 2) GiB))
          (clients db)) db).
Proof.
  intros Hfit. unfold recalculate_client_storage. rewrite to_decimal_GiB.
  apply Z.ltb_lt in Hfit. rewrite Hfit. reflexivity.
Qed.




(** ** Egress meter: [record_egress] and [get_client_monthly_egress] *)

Lemma egress_gb_nonneg (s : Z) : 0 <= s -> 0 <= egress_gb s.
Proof.
  intros Hs. apply round_half_away_nonneg; [|reflexivity].
  apply Z.mul_nonneg_nonneg; [exact Hs|]. vm_compute. discriminate.
Qed.

(** [egress_used_gb] is a column of [egress_usage] and of [clients], and no
    variable of the procedure: the [SELECT] after the upsert is rejected. *)
Lemma resolve_egress_used_gb :
  resolve_column "egress_used_gb" record_egress_locals
    [EgressUsage.columns; Clients.columns]
  = Some (ER_NON_UNIQ_ERROR "egress_used_gb").
Proof. vm_compute. reflexivity. Qed.

(** The procedure, outcome by outcome: it stops at the conversion of the
    byte count, at the foreign key, at the upsert, or -- the upsert done --
    at the [SELECT]; the threshold cascade is never reached. *)
Lemma record_egress_result (now : datetime) (new_id cid : uuid) (s : Z)
    (db : DB) :
  record_egress now new_id cid s db =
  match to_decimal 12 4 s GiB with
  | None => (Some ER_OUT_OF_RANGE, db)
  | Some v_gb =>
      match List.find (fun c => bool_decide (Clients.id c = cid)) (clients db) with
      | None => (Some ER_NO_REFERENCED_ROW, db)
      | Some c =>
          match upsert_egress (cid, date_format_Ym now) v_gb (egress_usage db) with
          | None => (Some ER_OUT_OF_RANGE, db)
          | Some eu =>
              (Some (ER_NON_UNIQ_ERROR "egress_used_gb"),
               with_egress_usage eu db)
          end
      end
  end.
Proof.
  unfold record_egress. rewrite resolve_egress_used_gb. reflexivity.
Qed.

(** One call for an existing client, with values that fit: the call ends in
    the error of the [SELECT], and the current-month row of the client has
    grown by the call's GB value. *)
Lemma record_egress_upserted (now : datetime) (new_id cid : uuid) (s : Z)
    (db : DB) (c : Clients.row) :
  List.find (fun c => bool_decide (Clients.id c = cid)) (clients db) = Some c ->
  0 <= s ->
  0 <= get_client_monthly_egress now cid db ->
  get_client_monthly_egress now cid db + egress_gb s < 10 ^ 12 ->
  record_egress now new_id cid s db
  = (Some (ER_NON_UNIQ_ERROR "egress_used_gb"),
     with_egress_usage
       (<[(cid, date_format_Ym now) :=
            match egress_usage db !! (cid, date_format_Ym now) with
            | None => egress_gb s
            | Some e => e + egress_gb s
            end]> (egress_usage db)) db).
Proof.
  intros Hc Hs H0 Hfit. pose proof (egress_gb_nonneg s Hs) as Hg.
  unfold get_client_monthly_egress in H0, Hfit.
  rewrite record_egress_result, to_decimal_GiB. fold (egress_gb s).
  assert ((Z.abs (egress_gb s) <? 10 ^ 12) = true) as -> by (apply Z.ltb_lt; lia).
  rewrite Hc. unfold upsert_egress.
  destruct (egress_usage db !! (cid, date_format_Ym now)) as [e|] eqn:He;
    simpl in H0, Hfit; [|reflexivity].
  assert ((Z.abs (e + egress_gb s) <? 10 ^ 12) = true) as ->
    by (apply Z.ltb_lt; lia).
  reflexivity.
Qed.

Lemma record_egress_step (now : datetime) (new_id cid : uuid) (s : Z) (db : DB)
    (c : Clients.row) :
  List.find (fun c => bool_decide (Clients.id c = cid)) (clients db) = Some c ->
  0 <= s ->
  0 <= get_client_monthly_egress now cid db ->
  get_client_monthly_egress now cid db + egress_gb s < 10 ^ 12 ->
  egress_usage (snd (record_egress now new_id cid s db))
  = <[(cid, date_format_Ym now) :=
        match egress_usage db !! (cid, date_format_Ym now) with
        | None => egress_gb s
        | Some e => e + egress_gb s
        end]> (egress_usage db)
  /\ clients (snd (record_egress now new_id cid s db)) = clients db.
Proof.
  intros Hc Hs H0 Hfit.
  rewrite (record_egress_upserted now new_id cid s db c Hc Hs H0 Hfit).
  destruct db; split; reflexivity.
Qed.

Lemma record_egress_step_usage (now : datetime) (new_id cid : uuid) (s : Z)
    (db : DB) (c : Clients.row) :
  List.find (fun c => bool_decide (Clients.id c = cid)) (clients db) = Some c ->
  0 <= s ->
  0 <= get_client_monthly_egress now cid db ->
  get_client_monthly_egress now cid db + egress_gb s < 10 ^ 12 ->
  get_client_monthly_egress now cid (snd (record_egress now new_id cid s db))
  = get_client_monthly_egress now cid db + egress_gb s.
Proof.
  intros Hc Hs H0 Hfit.
  destruct (record_egress_step now new_id cid s db c Hc Hs H0 Hfit) as [Heu _].
  unfold get_client_monthly_egress. rewrite Heu, lookup_insert_eq.
  destruct (egress_usage db !! (cid, date_format_Ym now)); simpl; lia.
Qed.

Lemma sum_egress_gb_nonneg (calls : list (datetime * uuid * Z)) :
  Forall (fun call => 0 <= snd call) calls -> 0 <= sum_egress_gb calls.
Proof.
  induction 1 as [|call calls Hc _ IH]; simpl; [lia|].
  pose proof (egress_gb_nonneg _ Hc). lia.
Qed.

Lemma record_downloads_usage (m : datetime) (cid : uuid) (c : Clients.row)
    (calls : list (datetime * uuid * Z)) (db : DB) :
  List.find (fun c => bool_decide (Clients.id c = cid)) (clients db) = Some c ->
  Forall (fun call => date_format_Ym (fst (fst call)) = date_format_Ym m) calls ->
  Forall (fun call => 0 <= snd call) calls ->
  0 <= get_client_monthly_egress m cid db ->
  get_client_monthly_egress m cid db + sum_egress_gb calls < 10 ^ 12 ->
  get_client_monthly_egress m cid (record_downloads cid calls db)
  = get_client_monthly_egress m cid db + sum_egress_gb calls.
Proof.
  intros Hc Hm Hs. revert db Hc.
  induction calls as [|[[now new_id] s] calls IH]; intros db Hc H0 Hfit.
  - simpl. lia.
  - inversion Hm as [|? ? Hm1 Hm2]; subst. inversion Hs as [|? ? Hs1 Hs2]; subst.
    simpl in Hm1, Hs1, Hfit |- *.
    pose proof (sum_egress_gb_nonneg calls Hs2) as Hsum.
    pose proof (egress_gb_nonneg s Hs1) as Hg.
    assert (Hget : forall d, get_client_monthly_egress m cid d
                             = get_client_monthly_egress now cid d)
      by (intros d; unfold get_client_monthly_egress; rewrite Hm1; reflexivity).
    rewrite Hget in H0, Hfit.
    pose proof (record_egress_step_usage now new_id cid s db c Hc Hs1 H0
                  ltac:(lia)) as Hstep.
    destruct (record_egress_step now new_id cid s db c Hc Hs1 H0 ltac:(lia))
      as [_ Hcl].
    rewrite IH.
    + rewrite !Hget, Hstep. lia.
    + exact Hm2.
    + exact Hs2.
    + rewrite Hcl. exact Hc.
    + rewrite Hget, Hstep. lia.
    + rewrite Hget, Hstep. lia.
Qed.

(** C2, as amended: [get_client_monthly_egress] is 0 for a client with no
    row for the current month; one [record_egress] call leaves in the
    (client, month) row the call's GB value when there was no row, and the
    old value plus the call's GB value otherwise; and after any series of
    calls within one month the current-month usage has grown by the sum of
    the calls' GB values, each being that call's bytes / 2^30 rounded to the
    four decimals of [v_gb DECIMAL(12,4)] -- not by the GB value of the sum
    of the bytes. The sizes are non-negative and the total fits
    [DECIMAL(12,4)]. *)
Theorem record_egress_adds_each_rounded_gb (m : datetime) (cid : uuid)
    (c : Clients.row) (calls : list (datetime * uuid * Z)) (db : DB) :
  List.find (fun c => bool_decide (Clients.id c = cid)) (clients db) = Some c ->
  Forall (fun call => date_format_Ym (fst (fst call)) = date_format_Ym m) calls ->
  Forall (fun call => 0 <= snd call) calls ->
  0 <= get_client_monthly_egress m cid db ->
  get_client_monthly_egress m cid db + sum_egress_gb calls < 10 ^ 12 ->
  (egress_usage db !! (cid, date_format_Ym m) = None ->
   get_client_monthly_egress m cid db = 0)
  /\ (forall new_id s,
        0 <= s -> get_client_monthly_egress m cid db + egress_gb s < 10 ^ 12 ->
        egress_usage (snd (record_egress m new_id cid s db))
          !! (cid, date_format_Ym m)
        = Some match egress_usage db !! (cid, date_format_Ym m) with
               | None => egress_gb s
               | Some e => e + egress_gb s
               end)
  /\ get_client_monthly_egress m cid (record_downloads cid calls db)
     = get_client_monthly_egress m cid db + sum_egress_gb calls.
Proof.
  intros Hc Hm Hs H0 Hfit. split; [|split].
  - intros Hnone. unfold get_client_monthly_egress. rewrite Hnone. reflexivity.
  - intros new_id s Hs0 Hfit1.
    destruct (record_egress_step m new_id cid s db c Hc Hs0 H0 Hfit1) as [-> _].
    apply lookup_insert_eq.
  - apply (record_downloads_usage m cid c calls db Hc Hm Hs H0 Hfit).
Qed.

(** The amended C2 at two downloads, of 1 GiB and of 512 MiB, in January
    2026: the usage is 1.5000 GB. *)
Lemma record_egress_adds_each_rounded_gb_witness :
  get_client_monthly_egress jan16 "c1"
    (record_downloads "c1"
       [(jan15, "a1"%string, 1073741824); (jan16, "a2"%string, 536870912)]
       (sample_db (sample_client 10000 0 204800 active) [] ∅ [] ∅))
  = 15000.
Proof.
  destruct (record_egress_adds_each_rounded_gb jan16 "c1"
              (sample_client 10000 0 204800 active)
              [(jan15, "a1"%string, 1073741824); (jan16, "a2"%string, 536870912)]
              (sample_db (sample_client 10000 0 204800 active) [] ∅ [] ∅))
    as (_ & _ & H).
  - reflexivity.
  - repeat constructor.
  - repeat constructor; simpl; lia.
  - vm_compute. discriminate.
  - vm_compute. reflexivity.
  - rewrite H. vm_compute. reflexivity.
Defined.

(** C2 as stated fails: after two downloads of 50,000 bytes each the
    current-month usage is 0.0000 GB, although the 100,000 bytes downloaded
    are 0.0001 GB at the precision of the column, and are not 0 GB. *)
Lemma record_egress_sum_converted_counterexample :
  let db := sample_db (sample_client 10000 0 204800 active) [] ∅ [] ∅ in
  let calls := [(jan15, "a1"%string, 50000); (jan16, "a2"%string, 50000)] in
  get_client_monthly_egress jan16 "c1" (record_downloads "c1" calls db) = 0
  /\ sum_bytes calls = 100000
  /\ to_decimal 12 4 (sum_bytes calls) GiB = Some 1
  /\ 0 * GiB <> sum_bytes calls * 10 ^ 4.
Proof.
  split; [vm_compute; reflexivity|]. split; [reflexivity|].
  split; [vm_compute; reflexivity|]. vm_compute. discriminate.
Qed.

(** ** Alert engine: the threshold cascade of [record_egress] *)

(** A call writes no alert: whatever it returns, [alerts] is as before. *)
Lemma record_egress_keeps_alerts (now : datetime) (new_id cid : uuid) (s : Z)
    (db : DB) :
  alerts (snd (record_egress now new_id cid s db)) = alerts db.
Proof.
  rewrite record_egress_result.
  destruct (to_decimal 12 4 s GiB); [|reflexivity].
  destruct (List.find _ (clients db)); [|reflexivity].
  destruct (upsert_egress _ _ _); [|reflexivity].
  destruct db; reflexivity.
Qed.

(** C3: within a month, and over any series of [record_egress] calls at
    all, no alert of any tenant, kind and threshold is created twice. The
    procedure stops at the [SELECT] that follows the upsert, before its
    threshold cascade, so a series of calls leaves [alerts] as it was: the
    unread alerts of a tenant, a kind and a threshold created since the
    start of the month are as many after the calls as before, at most one if
    they were at most one; and no single call inserts an alert, so none
    inserts an [egress_limit] alert of threshold 100 beside one that
    exists. *)
Theorem record_egress_alerts_at_most_one (cid : uuid)
    (calls : list (datetime * uuid * Z)) (db : DB) :
  alerts (record_downloads cid calls db) = alerts db
  /\ (forall cid' kind thr since,
        length (List.filter
                  (fun a => alert_matches cid' kind thr since a
                            && negb (Alerts.is_read a))
                  (alerts (record_downloads cid calls db)))
        = length (List.filter
                    (fun a => alert_matches cid' kind thr since a
                              && negb (Alerts.is_read a))
                    (alerts db)))
  /\ (forall cid' kind thr since,
        (alert_count cid' kind thr since (alerts db) <= 1)%nat ->
        (alert_count cid' kind thr since
           (alerts (record_downloads cid calls db)) <= 1)%nat)
  /\ (forall now new_id s,
        alerts (snd (record_egress now new_id cid s db)) = alerts db).
Proof.
  assert (Hkeep : alerts (record_downloads cid calls db) = alerts db).
  { revert db. induction calls as [|[[now new_id] s] calls IH]; intros db.
    - reflexivity.
    - simpl. rewrite IH. apply record_egress_keeps_alerts. }
  split; [exact Hkeep|]. rewrite Hkeep.
  split; [reflexivity|]. split; [intros ? ? ? ? H; exact H|].
  intros now new_id s. apply record_egress_keeps_alerts.
Qed.

(** C3 at a tenant at its 2048 GB limit that downloads 1 GiB on 15 January
    and again on 16 January, with one [egress_limit] alert of the month:
    that alert is still the only one. *)
Lemma record_egress_alerts_at_most_one_witness :
  alerts (record_downloads "c1"
            [(jan15, "a2"%string, GiB); (jan16, "a3"%string, GiB)]
            (sample_db (sample_client 10000 0 204800 active) []
                       {[ ("c1"%string, (2026, 1)) := 20480000 ]}
                       [sample_alert "a1" egress_limit 100 false jan15] ∅))
  = [sample_alert "a1" egress_limit 100 false jan15]
  /\ (alert_count "c1" egress_limit 100 (date_format_Ym01 jan16)
        (alerts (record_downloads "c1"
            [(jan15, "a2"%string, GiB); (jan16, "a3"%string, GiB)]
            (sample_db (sample_client 10000 0 204800 active) []
                       {[ ("c1"%string, (2026, 1)%Z) := 20480000%Z ]}
                       [sample_alert "a1" egress_limit 100 false jan15] ∅)))
      <= 1)%nat.
Proof.
  destruct (record_egress_alerts_at_most_one "c1"
              [(jan15, "a2"%string, GiB); (jan16, "a3"%string, GiB)]
              (sample_db (sample_client 10000 0 204800 active) []
                         {[ ("c1"%string, (2026, 1)) := 20480000 ]}
                         [sample_alert "a1" egress_limit 100 false jan15] ∅))
    as (H1 & _ & H3 & _).
  split; [exact H1|].
  apply H3. vm_compute. lia.
Defined.

(** C4 fails on the code, at scenario B: 1920 GB used of a 2048 GB limit,
    then a download of 1 GiB. The call adds the download to the usage, which
    becomes 1921 GB -- 93.80 percent of the limit -- and then stops at the
    [SELECT] with the error of the ambiguous column: no alert is created,
    where the claim has one [egress_warning] of threshold 90. *)
Theorem record_egress_creates_no_warning :
  record_egress jan15 "a1" "c1" GiB
    (sample_db (sample_client 10000 0 204800 active) []
               {[ ("c1"%string, (2026, 1)) := 19200000 ]} [] ∅)
  = (Some (ER_NON_UNIQ_ERROR "egress_used_gb"),
     sample_db (sample_client 10000 0 204800 active) []
               {[ ("c1"%string, (2026, 1)) := 19210000 ]} [] ∅)
  /\ usage_percent 19210000 204800 = Some 9380
  /\ alert_exists "c1" egress_warning 90 (date_format_Ym01 jan15) [] = false
  /\ alerts (snd (record_egress jan15 "a1" "c1" GiB
       (sample_db (sample_client 10000 0 204800 active) []
                  {[ ("c1"%string, (2026, 1)) := 19200000 ]} [] ∅))) = [].
Proof.
  split; [vm_compute; reflexivity|]. split; [vm_compute; reflexivity|].
  split; [reflexivity|]. apply record_egress_keeps_alerts.
Qed.

(** ** Authorizing an upload: [getUploadUrl] *)

(** Two numbers that compare equal are not strictly ordered. *)
Lemma js_eq_not_gt (a b : number) : js_eq a b = true -> js_gt a b = false.
Proof.
  unfold js_eq, js_gt, SFeqb, SFltb.
  destruct a as [sa|sa| |sa ma ea], b as [sb|sb| |sb mb eb]; simpl;
    try discriminate; try reflexivity;
    try (destruct sa, sb; simpl; intros; try discriminate; reflexivity);
    try (destruct sa; simpl; intros; try discriminate; reflexivity);
    try (destruct sb; simpl; intros; try discriminate; reflexivity).
  destruct sa, sb; simpl; try discriminate.
  - rewrite (Z.compare_antisym ea eb).
    destruct (ea ?= eb) eqn:E; simpl; try discriminate.
    change (Pos.compare_cont Eq mb ma) with (Pos.compare mb ma).
    change (Pos.compare_cont Eq ma mb) with (Pos.compare ma mb).
    rewrite (Pos.compare_antisym ma mb).
    destruct (ma ?= mb)%positive; simpl; intros; try discriminate; reflexivity.
  - rewrite (Z.compare_antisym ea eb).
    destruct (ea ?= eb) eqn:E; simpl; try discriminate.
    change (Pos.compare_cont Eq mb ma) with (Pos.compare mb ma).
    change (Pos.compare_cont Eq ma mb) with (Pos.compare ma mb).
    rewrite (Pos.compare_antisym ma mb).
    destruct (ma ?= mb)%positive; simpl; intros; try discriminate; reflexivity.
Qed.

(** The handler, branch by branch. *)
Lemma getUploadUrl_cases
    (s3 : option StorageConfig.row -> string -> string -> Z -> option string)
    (new_id : uuid) (user : session_user) (fileName : string) (fileSize : Z)
    (mimeType : string) (parentId : option uuid) (db : DB) :
  getUploadUrl s3 new_id user fileName fileSize mimeType parentId db =
  match client_of_user (uid user) db with
  | None => (Err CLIENT_NOT_FOUND, db)
  | Some (client, cs) =>
      if negb (bool_decide (Clients.status client = active))
      then (Err ACCOUNT_SUSPENDED, db)
      else if negb (verified cs) then (Err STORAGE_NOT_CONFIGURED, db)
      else if js_gt (newStorageUsed client fileSize)
                    (parseFloat 2 (Clients.storage_quota_gb client))
      then (Err QUOTA_EXCEEDED, db)
      else
        let path := upload_path fileName parentId (Clients.id client) db in
        let s3Key := upload_key cs path fileName in
        match s3 cs s3Key mimeType fileSize with
        | None => (Err StorageError, db)
        | Some uploadUrl =>
            match files_row_error
                    (new_file new_id (Clients.id client) fileName fileSize
                       mimeType path parentId s3Key) with
            | Some e => (Err (DatabaseError e), db)
            | None =>
                if parent_exists parentId db then
                  (Ok (uploadUrl, new_id, s3Key),
                   with_activity_logs
                     (activity_logs db
                      ++ [ActivityLogs.mk (Some (uid user)) (uname user)
                            (urole user) "file_upload_init"
                            ("Initiated upload: " +:+ fileName) (Some new_id)])
                     (with_files
                        (files db
                         ++ [new_file new_id (Clients.id client) fileName
                               fileSize mimeType path parentId s3Key]) db))
                else (Err (DatabaseError ER_NO_REFERENCED_ROW), db)
            end
        end
  end.
Proof.
  unfold getUploadUrl, bind, select, throw, execute, insert_file, update,
    logActivity, ret.
  destruct (client_of_user (uid user) db) as [[client cs]|]; [|reflexivity].
  destruct (negb (bool_decide (Clients.status client = active))); [reflexivity|].
  destruct (negb (verified cs)); [reflexivity|].
  destruct (js_gt _ _); [reflexivity|].
  destruct (s3 _ _ _ _); [|reflexivity].
  destruct (files_row_error _); [reflexivity|].
  simpl. destruct (parent_exists parentId db); reflexivity.
Qed.

(** The refusals of [getUploadUrl], on the numbers the handler computes:
    for the client of the requesting user the request fails with
    ACCOUNT_SUSPENDED whenever the status is not 'active'; it fails whenever
    the client has no verified storage configuration, with
    STORAGE_NOT_CONFIGURED once the status check has passed; it fails
    whenever the handler's binary64 sum of the stored usage and the upload
    size in GB is greater than the quota, with QUOTA_EXCEEDED once the two
    earlier checks have passed; and whenever it fails, the database, hence
    [files], is left as it was. *)
Theorem getUploadUrl_refusals
    (s3 : option StorageConfig.row -> string -> string -> Z -> option string)
    (new_id : uuid) (user : session_user) (fileName : string) (fileSize : Z)
    (mimeType : string) (parentId : option uuid) (db : DB)
    (client : Clients.row) (cs : option StorageConfig.row) :
  client_of_user (uid user) db = Some (client, cs) ->
  (Clients.status client <> active ->
   getUploadUrl s3 new_id user fileName fileSize mimeType parentId db
   = (Err ACCOUNT_SUSPENDED, db))
  /\ (verified cs = false ->
      exists e,
        getUploadUrl s3 new_id user fileName fileSize mimeType parentId db
        = (Err e, db)
        /\ (Clients.status client = active -> e = STORAGE_NOT_CONFIGURED))
  /\ (js_gt (newStorageUsed client fileSize)
            (parseFloat 2 (Clients.storage_quota_gb client)) = true ->
      exists e,
        getUploadUrl s3 new_id user fileName fileSize mimeType parentId db
        = (Err e, db)
        /\ (Clients.status client = active -> verified cs = true ->
            e = QUOTA_EXCEEDED))
  /\ (forall e db',
        getUploadUrl s3 new_id user fileName fileSize mimeType parentId db
        = (Err e, db') -> db' = db /\ files db' = files db).
Proof.
  intros Hc. rewrite getUploadUrl_cases, Hc.
  destruct (bool_decide (Clients.status client = active)) eqn:Hst; simpl;
    [apply bool_decide_eq_true_1 in Hst | apply bool_decide_eq_false_1 in Hst];
    (destruct (verified cs) eqn:Hv; simpl);
    (destruct (js_gt _ _) eqn:Hq);
    (split; [|split; [|split]]); intros;
    try destruct (s3 _ _ _ _);
    try destruct (files_row_error _);
    try destruct (parent_exists parentId db);
    first [ reflexivity
          | contradiction
          | discriminate
          | eexists; split;
            [reflexivity | intros; first [reflexivity | congruence]]
          | match goal with
            | H : _ = (Err _, _) |- _ => inversion H; subst; split; reflexivity
            end ].
Qed.

(** At scenario A: quota 100 GB, usage 0, an upload of 150 GiB fails with
    QUOTA_EXCEEDED and the database is unchanged; a suspended tenant gets
    ACCOUNT_SUSPENDED. *)
Lemma getUploadUrl_refusals_witness :
  getUploadUrl s3_up_ok "f9" sample_user "big.bin" (150 * GiB)
    "application/octet-stream" None
    (sample_db (sample_client 10000 0 204800 active) [] ∅ [] ∅)
  = (Err QUOTA_EXCEEDED,
     sample_db (sample_client 10000 0 204800 active) [] ∅ [] ∅)
  /\ getUploadUrl s3_up_ok "f9" sample_user "big.bin" 1
       "application/octet-stream" None
       (sample_db (sample_client 10000 0 204800 suspended) [] ∅ [] ∅)
     = (Err ACCOUNT_SUSPENDED,
        sample_db (sample_client 10000 0 204800 suspended) [] ∅ [] ∅).
Proof.
  split.
  - destruct (getUploadUrl_refusals s3_up_ok "f9" sample_user "big.bin" (150 * GiB)
                "application/octet-stream" None
                (sample_db (sample_client 10000 0 204800 active) [] ∅ [] ∅)
                (sample_client 10000 0 204800 active)
                (Some (sample_config true)) eq_refl)
      as (_ & _ & Hq & _).
    destruct Hq as (e & He & Hkind); [vm_compute; reflexivity|].
    rewrite He, (Hkind eq_refl eq_refl). reflexivity.
  - destruct (getUploadUrl_refusals s3_up_ok "f9" sample_user "big.bin" 1
                "application/octet-stream" None
                (sample_db (sample_client 10000 0 204800 suspended) [] ∅ [] ∅)
                (sample_client 10000 0 204800 suspended)
                (Some (sample_config true)) eq_refl)
      as (Hs & _).
    apply Hs. discriminate.
Defined.

(** The quota test is strict on the numbers it compares: [getUploadUrl]
    fails with QUOTA_EXCEEDED only when the handler's sum of the cached
    usage and the upload size in GB is greater than the quota; when that sum
    equals the quota the request is not refused for quota, and for an
    active tenant with a verified configuration it is authorized: once the
    presigned URL is obtained the answer is a success and the file row is
    inserted. *)
Lemma getUploadUrl_quota_is_strict
    (s3 : option StorageConfig.row -> string -> string -> Z -> option string)
    (new_id : uuid) (user : session_user) (fileName : string) (fileSize : Z)
    (mimeType : string) (parentId : option uuid) (db : DB)
    (client : Clients.row) (cs : option StorageConfig.row) :
  client_of_user (uid user) db = Some (client, cs) ->
  (forall db',
     getUploadUrl s3 new_id user fileName fileSize mimeType parentId db
     = (Err QUOTA_EXCEEDED, db') ->
     js_gt (newStorageUsed client fileSize)
           (parseFloat 2 (Clients.storage_quota_gb client)) = true)
  /\ (js_eq (newStorageUsed client fileSize)
            (parseFloat 2 (Clients.storage_quota_gb client)) = true ->
      (forall db',
         getUploadUrl s3 new_id user fileName fileSize mimeType parentId db
         <> (Err QUOTA_EXCEEDED, db'))
      /\ (Clients.status client = active -> verified cs = true ->
          parent_exists parentId db = true ->
          files_row_error
            (new_file new_id (Clients.id client) fileName fileSize mimeType
               (upload_path fileName parentId (Clients.id client) db) parentId
               (upload_key cs (upload_path fileName parentId
                                 (Clients.id client) db) fileName)) = None ->
          forall uploadUrl,
            s3 cs (upload_key cs (upload_path fileName parentId
                                    (Clients.id client) db) fileName)
               mimeType fileSize = Some uploadUrl ->
            exists db',
              getUploadUrl s3 new_id user fileName fileSize mimeType parentId db
              = (Ok (uploadUrl, new_id,
                     upload_key cs (upload_path fileName parentId
                                      (Clients.id client) db) fileName), db')
              /\ files db'
                 = files db
                   ++ [new_file new_id (Clients.id client) fileName fileSize
                         mimeType
                         (upload_path fileName parentId (Clients.id client) db)
                         parentId
                         (upload_key cs (upload_path fileName parentId
                                           (Clients.id client) db) fileName)])).
Proof.
  intros Hc. rewrite getUploadUrl_cases, Hc. split; [|intros Heq; split].
  - intros db'.
    destruct (negb (bool_decide (Clients.status client = active)));
      [discriminate|].
    destruct (negb (verified cs)); [discriminate|].
    destruct (js_gt _ _); [reflexivity|].
    simpl. destruct (s3 _ _ _ _); [|discriminate].
    destruct (files_row_error _); [discriminate|].
    destruct (parent_exists parentId db); discriminate.
  - intros db'. rewrite (js_eq_not_gt _ _ Heq).
    destruct (negb (bool_decide (Clients.status client = active)));
      [discriminate|].
    destruct (negb (verified cs)); [discriminate|].
    simpl. destruct (s3 _ _ _ _); [|discriminate].
    destruct (files_row_error _); [discriminate|].
    destruct (parent_exists parentId db); discriminate.
  - intros Hst Hv Hp Hfit uploadUrl Hs3.
    rewrite (js_eq_not_gt _ _ Heq), Hv.
    rewrite (bool_decide_eq_true_2 _ Hst). simpl. rewrite Hs3, Hfit, Hp.
    eexists. split; [reflexivity|]. destruct db; reflexivity.
Qed.

(** A tenant with quota 100 GB and 40 GB used: an upload of 60 GiB fills the
    quota exactly and is authorized. *)
Lemma getUploadUrl_fills_whole_quota :
  exists db',
    getUploadUrl s3_up_ok "f9" sample_user "disk.img" (60 * GiB)
      "application/octet-stream" None
      (sample_db (sample_client 10000 4000 204800 active) [] ∅ [] ∅)
    = (Ok ("https://put/tenants/c1/disk.img/disk.img"%string, "f9"%string,
           "tenants/c1/disk.img/disk.img"%string), db')
    /\ map Files.size_bytes (files db') = [60 * GiB].
Proof.
  destruct (getUploadUrl_quota_is_strict s3_up_ok "f9" sample_user "disk.img"
              (60 * GiB) "application/octet-stream" None
              (sample_db (sample_client 10000 4000 204800 active) [] ∅ [] ∅)
              (sample_client 10000 4000 204800 active)
              (Some (sample_config true)) eq_refl)
    as (_ & Heq).
  destruct Heq as (_ & Hok); [vm_compute; reflexivity|].
  destruct (Hok eq_refl eq_refl eq_refl eq_refl
              "https://put/tenants/c1/disk.img/disk.img"%string)
    as (db' & Hr & Hf); [vm_compute; reflexivity|].
  exists db'. split; [exact Hr|]. rewrite Hf. reflexivity.
Qed.

(** C5 fails on the code: a tenant has used 115,323.22 GB of a quota of
    262,194.26 GB and asks to upload 157,701,578,382,377 bytes. The usage
    plus the size in GB exceeds the quota (by four hundredths of a byte), but
    the handler's binary64 sum is the number nearest to the quota, which is
    not greater than it: the request is answered and the file row is
    created, where the claim has QUOTA_EXCEEDED and no row. *)
Theorem getUploadUrl_authorizes_over_quota :
  Clients.storage_quota_gb (sample_client 26219426 11532322 204800 active) * GiB
  < Clients.storage_used_gb (sample_client 26219426 11532322 204800 active) * GiB
    + 157701578382377 * 10 ^ 2
  /\ js_gt (newStorageUsed (sample_client 26219426 11532322 204800 active)
                           157701578382377)
           (parseFloat 2 26219426) = false
  /\ fst (getUploadUrl s3_up_ok "f9" sample_user "disk.img" 157701578382377
            "application/octet-stream" None
            (sample_db (sample_client 26219426 11532322 204800 active) []
                       ∅ [] ∅))
     = Ok ("https://put/tenants/c1/disk.img/disk.img"%string, "f9"%string,
           "tenants/c1/disk.img/disk.img"%string)
  /\ map Files.size_bytes
         (files (snd (getUploadUrl s3_up_ok "f9" sample_user "disk.img"
                        157701578382377 "application/octet-stream" None
                        (sample_db
                           (sample_client 26219426 11532322 204800 active) []
                           ∅ [] ∅))))
     = [157701578382377].
Proof.
  split; [vm_compute; reflexivity|]. split; [vm_compute; reflexivity|].
  split; vm_compute; reflexivity.
Qed.

(** C10 fails on the code: a tenant has used 0.14 GB of a quota of 1.14 GB
    and asks to upload 1 GiB, which fills the quota exactly
    (0.14 + 1 = 1.14). The handler adds the number nearest to 0.14 and 1,
    gets a number above the one nearest to 1.14, and answers QUOTA_EXCEEDED;
    no file row is created. *)
Theorem getUploadUrl_refuses_exact_fill :
  Clients.storage_used_gb (sample_client 114 14 204800 active) * GiB
  + 1073741824 * 10 ^ 2
  = Clients.storage_quota_gb (sample_client 114 14 204800 active) * GiB
  /\ js_gt (newStorageUsed (sample_client 114 14 204800 active) 1073741824)
           (parseFloat 2 114) = true
  /\ getUploadUrl s3_up_ok "f9" sample_user "disk.img" 1073741824
       "application/octet-stream" None
       (sample_db (sample_client 114 14 204800 active) [] ∅ [] ∅)
     = (Err QUOTA_EXCEEDED,
        sample_db (sample_client 114 14 204800 active) [] ∅ [] ∅).
Proof.
  split; [reflexivity|]. split; vm_compute; reflexivity.
Qed.

(** ** Authorizing a download: [getDownloadUrl] *)

(** The handler up to its egress test. *)
Lemma getDownloadUrl_checks
    (s3 : option StorageConfig.row -> option string -> option string)
    (now : datetime) (new_id : uuid) (user : session_user) (fileId : uuid)
    (db : DB) :
  match head (download_rows now fileId (uid user) db) with
  | None =>
      getDownloadUrl s3 now new_id user fileId db = (Err FILE_NOT_FOUND, db)
  | Some (f, c, e, cs) =>
      if negb (bool_decide (Clients.status c = active))
      then getDownloadUrl s3 now new_id user fileId db
           = (Err ACCOUNT_SUSPENDED, db)
      else if blockOnOverage db
                && js_ge (parseFloat 4 e)
                         (parseFloat 2 (Clients.egress_free_limit_gb c))
      then getDownloadUrl s3 now new_id user fileId db
           = (Err DOWNLOAD_LIMIT_EXCEEDED, db)
      else forall db',
          getDownloadUrl s3 now new_id user fileId db
          <> (Err DOWNLOAD_LIMIT_EXCEEDED, db')
  end.
Proof.
  unfold getDownloadUrl, bind, select, throw.
  destruct (head (download_rows now fileId (uid user) db))
    as [[[[f c] e] cs]|]; [|reflexivity].
  destruct (negb (bool_decide (Clients.status c = active))); [reflexivity|].
  destruct (blockOnOverage db && js_ge _ _); [reflexivity|].
  intros db'. destruct (s3 cs (Files.s3_key f)); [|discriminate].
  unfold execute, update, logActivity, ret.
  destruct (record_egress _ _ _ _ _) as [[err|] db1]; discriminate.
Qed.

Lemma getDownloadUrl_blocked
    (s3 : option StorageConfig.row -> option string -> option string)
    (now : datetime) (new_id : uuid) (user : session_user) (fileId : uuid)
    (db : DB) :
  blockOnOverage db = true ->
  over_limit_request db (now, new_id, user, fileId) ->
  getDownloadUrl s3 now new_id user fileId db
  = (Err DOWNLOAD_LIMIT_EXCEEDED, db).
Proof.
  intros Hb (f & c & e & cs & Hrow & Hst & Hge).
  pose proof (getDownloadUrl_checks s3 now new_id user fileId db) as H.
  rewrite Hrow in H. rewrite (bool_decide_eq_true_2 _ Hst), Hb, Hge in H.
  exact H.
Qed.

(** Blocking on overage, as the handler reads the setting: while the query
    for [block_downloads_on_overage] returns the string 'true', every
    download request for a file of an active tenant whose current-month
    egress is at or above the free limit fails with DOWNLOAD_LIMIT_EXCEEDED
    and leaves the database as it was; so any series of such requests fails
    throughout, the usage and the setting being still what they were after
    it. Conversely a request fails with DOWNLOAD_LIMIT_EXCEEDED only when
    the query returns the string 'true' -- not when it returns the boolean
    [true], or anything else -- and the usage is at or above the limit. *)
Theorem getDownloadUrl_blocked_until_change
    (s3 : option StorageConfig.row -> option string -> option string)
    (reqs : list (datetime * uuid * session_user * uuid)) (db : DB) :
  (blockOnOverage db = true ->
   Forall (over_limit_request db) reqs ->
   download_requests s3 reqs db
   = (map (fun _ => Err DOWNLOAD_LIMIT_EXCEEDED) reqs, db))
  /\ (forall now new_id user fileId db',
        getDownloadUrl s3 now new_id user fileId db
        = (Err DOWNLOAD_LIMIT_EXCEEDED, db') ->
        blockOnOverage db = true
        /\ over_limit_request db (now, new_id, user, fileId)).
Proof.
  split.
  - intros Hb Hall. induction Hall as [|[[[now new_id] user] fileId] reqs H _ IH].
    + reflexivity.
    + simpl. rewrite (getDownloadUrl_blocked s3 now new_id user fileId db Hb H).
      rewrite IH. reflexivity.
  - intros now new_id user fileId db' Hr.
    pose proof (getDownloadUrl_checks s3 now new_id user fileId db) as H.
    unfold over_limit_request.
    destruct (head (download_rows now fileId (uid user) db))
      as [[[[f c] e] cs]|]; [|congruence].
    destruct (bool_decide (Clients.status c = active)) eqn:Hst; simpl in H;
      [|congruence].
    apply bool_decide_eq_true_1 in Hst.
    destruct (blockOnOverage db) eqn:Hb; simpl in H;
      [|exfalso; exact (H db' Hr)].
    destruct (js_ge _ _) eqn:Hge; [|exfalso; exact (H db' Hr)].
    split; [reflexivity|]. exists f, c, e, cs. repeat split; assumption.
Qed.

(** At a tenant that has used 2048 GB of a 2048 GB limit, with the setting
    read as 'true': three requests, on two days, all fail with
    DOWNLOAD_LIMIT_EXCEEDED and nothing is written. *)
Lemma getDownloadUrl_blocked_until_change_witness :
  download_requests s3_down_ok
    [(jan15, "a1"%string, sample_user, "f1"%string);
     (jan16, "a2"%string, sample_user, "f1"%string);
     (jan16, "a3"%string, sample_user, "f1"%string)]
    (sample_db (sample_client 10000 100 204800 active)
       [sample_file "f1" GiB (Some "etag"%string) None]
       {[ ("c1"%string, (2026, 1)) := 20480000 ]} []
       {[ "block_downloads_on_overage"%string := js_string "true" ]})
  = ([Err DOWNLOAD_LIMIT_EXCEEDED; Err DOWNLOAD_LIMIT_EXCEEDED;
      Err DOWNLOAD_LIMIT_EXCEEDED],
     sample_db (sample_client 10000 100 204800 active)
       [sample_file "f1" GiB (Some "etag"%string) None]
       {[ ("c1"%string, (2026, 1)) := 20480000 ]} []
       {[ "block_downloads_on_overage"%string := js_string "true" ]}).
Proof.
  apply (proj1 (getDownloadUrl_blocked_until_change s3_down_ok
    [(jan15, "a1"%string, sample_user, "f1"%string);
     (jan16, "a2"%string, sample_user, "f1"%string);
     (jan16, "a3"%string, sample_user, "f1"%string)]
    (sample_db (sample_client 10000 100 204800 active)
       [sample_file "f1" GiB (Some "etag"%string) None]
       {[ ("c1"%string, (2026, 1)) := 20480000 ]} []
       {[ "block_downloads_on_overage"%string := js_string "true" ]}))).
  - vm_compute. reflexivity.
  - repeat constructor;
      (exists (sample_file "f1" GiB (Some "etag"%string) None),
              (sample_client 10000 100 204800 active), 20480000,
              (Some (sample_config true));
       repeat split; vm_compute; reflexivity).
Defined.

(** ** Which files count: [recalculate_client_storage] and [s3_etag] *)

Lemma counted_set_etag (cid fileId : uuid) (etag : option string)
    (f : Files.row) :
  counted cid (set_etag fileId etag f) = counted cid f
  /\ Files.size_bytes (set_etag fileId etag f) = Files.size_bytes f.
Proof. unfold set_etag. case_bool_decide; split; reflexivity. Qed.

Lemma sum_size_bytes_set_etag (cid fileId : uuid) (etag : option string)
    (fs : list Files.row) :
  sum_size_bytes cid (map (set_etag fileId etag) fs) = sum_size_bytes cid fs.
Proof.
  unfold sum_size_bytes. induction fs as [|f fs IH]; [reflexivity|].
  simpl. destruct (counted_set_etag cid fileId etag f) as [-> Hsz].
  destruct (counted cid f); simpl; [rewrite Hsz, IH|rewrite IH]; reflexivity.
Qed.

Lemma sum_size_bytes_snoc (cid : uuid) (fs : list Files.row) (f : Files.row) :
  sum_size_bytes cid (fs ++ [f])
  = sum_size_bytes cid fs + (if counted cid f then Files.size_bytes f else 0).
Proof.
  unfold sum_size_bytes. induction fs as [|g fs IH]; simpl.
  - destruct (counted cid f); simpl; lia.
  - destruct (counted cid g); simpl; rewrite IH; lia.
Qed.

(** C7, as amended: a file row counts toward the recalculated usage exactly
    while it is the client's, has [type = 'file'] and a null [deleted_at],
    whether or not [s3_etag] is set: setting or clearing the etag of a file
    changes nothing in what [recalculate_client_storage] writes, and after a
    successful [getUploadUrl] that is never confirmed the sum that a
    recalculation converts has grown by the declared size of the upload. *)
Theorem recalculate_counts_unconfirmed_files :
  (forall cid f,
     counted cid f = true
     <-> Files.client_id f = cid /\ Files.type f = file
         /\ Files.deleted_at f = None)
  /\ (forall cid fileId etag db,
        clients (snd (recalculate_client_storage cid
                        (with_files (map (set_etag fileId etag) (files db)) db)))
        = clients (snd (recalculate_client_storage cid db)))
  /\ (forall s3 new_id user fileName fileSize mimeType parentId db client cs
             r db',
        client_of_user (uid user) db = Some (client, cs) ->
        getUploadUrl s3 new_id user fileName fileSize mimeType parentId db
        = (Ok r, db') ->
        (exists f, files db' = files db ++ [f] /\ Files.s3_etag f = None)
        /\ sum_size_bytes (Clients.id client) (files db')
           = sum_size_bytes (Clients.id client) (files db) + fileSize).
Proof.
  split; [|split].
  - intros cid f. unfold counted. rewrite !andb_true_iff, !bool_decide_eq_true.
    tauto.
  - intros cid fileId etag db. unfold recalculate_client_storage.
    destruct db; simpl. rewrite sum_size_bytes_set_etag.
    destruct (to_decimal 10 2 _ GiB); reflexivity.
  - intros s3 new_id user fileName fileSize mimeType parentId db client cs r db'
           Hc Hr.
    rewrite getUploadUrl_cases, Hc in Hr.
    destruct (negb (bool_decide (Clients.status client = active)));
      [discriminate|].
    destruct (negb (verified cs)); [discriminate|].
    destruct (js_gt _ _); [discriminate|].
    simpl in Hr. destruct (s3 _ _ _ _); [|discriminate].
    destruct (files_row_error _); [discriminate|].
    destruct (parent_exists parentId db); [|discriminate].
    injection Hr as _ <-. destruct db; simpl. split.
    + eexists. split; reflexivity.
    + rewrite sum_size_bytes_snoc. unfold counted, new_file. simpl.
      rewrite !bool_decide_eq_true_2 by reflexivity. reflexivity.
Qed.

(** The amended C7 at an upload of 1 GiB that is never confirmed: the sum
    converted by the next recalculation is 1 GiB. *)
Lemma recalculate_counts_unconfirmed_files_witness :
  exists r db',
    getUploadUrl s3_up_ok "f1" sample_user "report.pdf" GiB "application/pdf"
      None (sample_db (sample_client 10000 0 204800 active) [] ∅ [] ∅)
    = (Ok r, db')
    /\ sum_size_bytes "c1" (files db') = GiB.
Proof.
  eexists _, _. split; [vm_compute; reflexivity|].
  match goal with
  | |- sum_size_bytes _ (files ?d) = _ =>
      exact (proj2 (proj2 (proj2 recalculate_counts_unconfirmed_files)
                      s3_up_ok "f1"%string sample_user "report.pdf"%string GiB
                      "application/pdf"%string None
                      (sample_db (sample_client 10000 0 204800 active) [] ∅ [] ∅)
                      (sample_client 10000 0 204800 active)
                      (Some (sample_config true))
                      ("https://put/tenants/c1/report.pdf/report.pdf"%string,
                       "f1"%string,
                       "tenants/c1/report.pdf/report.pdf"%string)
                      d eq_refl ltac:(vm_compute; reflexivity)))
  end.
Defined.

(** C7 as stated fails: the row that [getUploadUrl] created for a 1 GiB
    upload has no etag, so the confirmed files of the tenant sum to 0
    bytes; yet the next recalculation writes 1.00 GB as the usage. *)
Lemma unconfirmed_file_counterexample :
  exists r db1 db2,
    getUploadUrl s3_up_ok "f1" sample_user "report.pdf" GiB "application/pdf"
      None (sample_db (sample_client 10000 0 204800 active) [] ∅ [] ∅)
    = (Ok r, db1)
    /\ map Files.s3_etag (files db1) = [None]
    /\ sum_confirmed_bytes "c1" (files db1) = 0
    /\ recalculate_client_storage "c1" db1 = (None, db2)
    /\ map Clients.storage_used_gb (clients db2) = [100].
Proof.
  eexists _, _, _. split; [vm_compute; reflexivity|].
  split; [reflexivity|]. split; [reflexivity|].
  split; vm_compute; reflexivity.
Qed.

(** ** Monthly reset: [reset_monthly_egress] *)





(** ** Alerts: [markAlertRead] and [dismissAlert] *)

(** For an alert of the requesting tenant the [UPDATE] of [dismissAlert]
    names a column that [alerts] does not have: the query is rejected and
    nothing is written. *)
Lemma dismissAlert_rejected (user : session_user) (alertId : uuid) (db : DB) :
  alert_rows alertId (uid user) db <> [] ->
  dismissAlert user alertId db
  = (Err (DatabaseError (ER_BAD_FIELD "is_dismissed")), db).
Proof.
  intros Hrows. unfold dismissAlert, bind, select.
  case_bool_decide; [contradiction|reflexivity].
Qed.

(** C9 fails on the code: [alerts] has the column [is_read] and no column
    [is_dismissed]; for an unread alert of the requesting tenant,
    [dismissAlert] ends with the error of the rejected [UPDATE] and the row
    is as before, whereas [markAlertRead] sets [is_read]. *)
Theorem dismissAlert_fails_on_owned_alert :
  ~ ("is_dismissed"%string ∈ Alerts.columns)
  /\ dismissAlert sample_user "a1"
       (sample_db (sample_client 10000 0 204800 active) [] ∅
                  [sample_alert "a1" egress_warning 90 false jan15] ∅)
     = (Err (DatabaseError (ER_BAD_FIELD "is_dismissed")),
        sample_db (sample_client 10000 0 204800 active) [] ∅
                  [sample_alert "a1" egress_warning 90 false jan15] ∅)
  /\ markAlertRead sample_user "a1"
       (sample_db (sample_client 10000 0 204800 active) [] ∅
                  [sample_alert "a1" egress_warning 90 false jan15] ∅)
     = (Ok tt,
        sample_db (sample_client 10000 0 204800 active) [] ∅
                  [sample_alert "a1" egress_warning 90 true jan15] ∅).
Proof.
  split; [|split].
  - intros H. apply list_elem_of_In in H. simpl in H.
    repeat (destruct H as [H|H]; [discriminate|]). exact H.
  - apply dismissAlert_rejected. vm_compute. discriminate.
  - vm_compute. reflexivity.
Qed.

(** * Further properties of the modelled code *)

(** ** [recalculate_client_storage] *)

Lemma sum_size_bytes_none_counted (cid : uuid) (fs : list Files.row) :
  Forall (fun f => counted cid f = false) fs -> sum_size_bytes cid fs = 0.
Proof.
  unfold sum_size_bytes. induction 1 as [|f fs Hf _ IH]; [reflexivity|].
  simpl. rewrite Hf. exact IH.
Qed.

(** A tenant none of whose rows is a live file -- each row of [files] is
    another client's, a folder, or soft-deleted -- is recalculated to a
    usage of 0.00 GB, and the call cannot fail. *)
Theorem recalculate_without_live_files (db : DB) (cid : uuid) :
  Forall (fun f => Files.client_id f <> cid \/ Files.type f = folder
                   \/ Files.deleted_at f <> None) (files db) ->
  exists db',
    recalculate_client_storage cid db = (None, db')
    /\ forall c, c ∈ clients db' -> Clients.id c = cid ->
                 Clients.storage_used_gb c = 0.
Proof.
  intros Hall.
  assert (Hsum : sum_size_bytes cid (files db) = 0).
  { apply sum_size_bytes_none_counted. eapply Forall_impl; [exact Hall|].
    intros f Hf. unfold counted. simpl in Hf.
    destruct Hf as [Hf | [Hf | Hf]].
    - rewrite (bool_decide_eq_false_2 _ Hf). reflexivity.
    - rewrite (bool_decide_eq_false_2 (Files.type f = file))
        by (rewrite Hf; discriminate).
      rewrite andb_false_r. reflexivity.
    - rewrite (bool_decide_eq_false_2 _ Hf). apply andb_false_r. }
  unfold recalculate_client_storage. rewrite Hsum.
  change (to_decimal 10 2 0 GiB) with (Some 0).
  eexists. split; [reflexivity|]. intros c Hc Hid. destruct db; simpl in *.
  apply list_elem_of_fmap in Hc as (c0 & -> & _).
  rewrite set_storage_used_id in Hid. apply set_storage_used_at, Hid.
Qed.

(** At a tenant with a folder, a soft-deleted file of 3 GiB and a stale usage
    of 3.00 GB, next to a file of another client. *)
Lemma recalculate_without_live_files_witness :
  exists db',
    recalculate_client_storage "c1"
      (sample_db (sample_client 10000 300 204800 active)
         [Files.mk "d1" "c1" "docs" 0 folder None "docs" None None None None;
          sample_file "f1" (3 * GiB) (Some "e"%string) (Some nov20);
          Files.mk "g1" "c2" "x" 4096 file None "x" None None None None]
         ∅ [] ∅) = (None, db')
    /\ map Clients.storage_used_gb (clients db') = [0].
Proof.
  destruct (recalculate_without_live_files
      (sample_db (sample_client 10000 300 204800 active)
         [Files.mk "d1" "c1" "docs" 0 folder None "docs" None None None None;
          sample_file "f1" (3 * GiB) (Some "e"%string) (Some nov20);
          Files.mk "g1" "c2" "x" 4096 file None "x" None None None None]
         ∅ [] ∅) "c1") as (db' & Hr & _).
  - constructor; [right; left; reflexivity|].
    constructor; [right; right; discriminate|].
    constructor; [left; discriminate|]. constructor.
  - exists db'. split; [exact Hr|].
    vm_compute in Hr. injection Hr as <-. reflexivity.
Defined.

Lemma set_storage_used_frame (cid : uuid) (v : Z) (c : Clients.row) :
  Clients.id (set_storage_used cid v c) = Clients.id c
  /\ Clients.user_id (set_storage_used cid v c) = Clients.user_id c
  /\ Clients.storage_quota_gb (set_storage_used cid v c)
     = Clients.storage_quota_gb c
  /\ Clients.egress_used_gb (set_storage_used cid v c)
     = Clients.egress_used_gb c
  /\ Clients.egress_free_limit_gb (set_storage_used cid v c)
     = Clients.egress_free_limit_gb c
  /\ Clients.status (set_storage_used cid v c) = Clients.status c
  /\ (Clients.id c <> cid -> set_storage_used cid v c = c).
Proof.
  unfold set_storage_used.
  destruct (bool_decide (Clients.id c = cid)) eqn:E; simpl;
    do 6 (split; [reflexivity|]); intros Hne; [|reflexivity].
  apply bool_decide_eq_true_1 in E. contradiction.
Qed.

(** Whatever it returns, a recalculation for one tenant writes nothing but
    [storage_used_gb] of that tenant: the rows of every other client are
    what they were, the tenant's own row keeps its id, user, quota, egress
    usage, egress limit and status, and no other table changes. *)
Theorem recalculate_changes_usage_only (db : DB) (cid : uuid) :
  Forall2 (fun c c' =>
             Clients.id c' = Clients.id c
             /\ Clients.user_id c' = Clients.user_id c
             /\ Clients.storage_quota_gb c' = Clients.storage_quota_gb c
             /\ Clients.egress_used_gb c' = Clients.egress_used_gb c
             /\ Clients.egress_free_limit_gb c' = Clients.egress_free_limit_gb c
             /\ Clients.status c' = Clients.status c
             /\ (Clients.id c <> cid -> c' = c))
          (clients db) (clients (snd (recalculate_client_storage cid db)))
  /\ files (snd (recalculate_client_storage cid db)) = files db
  /\ egress_usage (snd (recalculate_client_storage cid db)) = egress_usage db
  /\ alerts (snd (recalculate_client_storage cid db)) = alerts db
  /\ client_storage_config (snd (recalculate_client_storage cid db))
     = client_storage_config db.
Proof.
  unfold recalculate_client_storage.
  destruct (to_decimal 10 2 _ GiB) as [v|].
  - split; [|destruct db; repeat split; reflexivity].
    replace (clients (snd (None (A:=sql_error),
               with_clients (map (set_storage_used cid v) (clients db)) db)))
      with (map (set_storage_used cid v) (clients db))
      by (destruct db; reflexivity).
    apply Forall2_fmap_r, Forall_Forall2_diag, Forall_forall.
    intros c _. apply set_storage_used_frame.
  - split; [|repeat split; reflexivity].
    apply Forall_Forall2_diag, Forall_forall. intros c _.
    do 6 (split; [reflexivity|]). reflexivity.
Qed.

(** ** [record_egress] *)

Lemma upsert_egress_other (key key' : uuid * month_key) (v_gb : Z)
    (eu eu' : gmap (uuid * month_key) Z) :
  upsert_egress key v_gb eu = Some eu' -> key' <> key -> eu' !! key' = eu !! key'.
Proof.
  unfold upsert_egress. intros H Hne.
  destruct (eu !! key) as [e|].
  - destruct (Z.abs (e + v_gb) <? 10 ^ 12); [|discriminate].
    injection H as <-. apply lookup_insert_ne. congruence.
  - injection H as <-. apply lookup_insert_ne. congruence.
Qed.

(** Whatever it returns, a [record_egress] call for a client and a month
    writes at most that one row of [egress_usage] -- the rows of every other
    client and of every other month are untouched -- and, besides [alerts],
    no other table. *)
Theorem record_egress_touches_one_row (now : datetime) (new_id cid : uuid)
    (s : Z) (db : DB) :
  (forall key,
     key <> (cid, date_format_Ym now) ->
     egress_usage (snd (record_egress now new_id cid s db)) !! key
     = egress_usage db !! key)
  /\ clients (snd (record_egress now new_id cid s db)) = clients db
  /\ files (snd (record_egress now new_id cid s db)) = files db
  /\ system_settings (snd (record_egress now new_id cid s db))
     = system_settings db
  /\ download_history (snd (record_egress now new_id cid s db))
     = download_history db.
Proof.
  rewrite record_egress_result.
  destruct (to_decimal 12 4 s GiB) as [v_gb|];
    [|repeat split; reflexivity].
  destruct (List.find _ (clients db)) as [c|]; [|repeat split; reflexivity].
  destruct (upsert_egress _ _ _) as [eu|] eqn:Hup;
    [|repeat split; reflexivity].
  assert (Hother : forall key, key <> (cid, date_format_Ym now) ->
                               eu !! key = egress_usage db !! key)
    by (intros key Hne; exact (upsert_egress_other _ _ _ _ _ Hup Hne)).
  destruct db; repeat split; try reflexivity; exact Hother.
Qed.

(** A call with a non-negative byte count never lowers the current-month
    usage of the client, whether it succeeds or ends in an error. *)
Theorem record_egress_never_lowers_usage (now : datetime) (new_id cid : uuid)
    (s : Z) (db : DB) :
  0 <= s ->
  get_client_monthly_egress now cid db
  <= get_client_monthly_egress now cid (snd (record_egress now new_id cid s db)).
Proof.
  intros Hs. pose proof (egress_gb_nonneg s Hs) as Hg.
  unfold get_client_monthly_egress.
  rewrite record_egress_result, to_decimal_GiB. fold (egress_gb s).
  destruct (Z.abs (egress_gb s) <? 10 ^ 12); [|reflexivity].
  destruct (List.find _ (clients db)) as [c|]; [|reflexivity].
  unfold upsert_egress.
  destruct (egress_usage db !! (cid, date_format_Ym now)) as [e|] eqn:He.
  - destruct (Z.abs (e + egress_gb s) <? 10 ^ 12);
      [|simpl; rewrite He; reflexivity].
    unfold with_egress_usage. simpl. rewrite lookup_insert_eq. simpl. lia.
  - unfold with_egress_usage. simpl. rewrite lookup_insert_eq. simpl. lia.
Qed.

Lemma record_egress_never_lowers_usage_witness :
  get_client_monthly_egress jan15 "c1"
    (sample_db (sample_client 10000 0 204800 active) []
               {[ ("c1"%string, (2026, 1)) := 19200000 ]} [] ∅)
  <= get_client_monthly_egress jan15 "c1"
       (snd (record_egress jan15 "a1" "c1" 40000
          (sample_db (sample_client 10000 0 204800 active) []
                     {[ ("c1"%string, (2026, 1)) := 19200000 ]} [] ∅))).
Proof.
  apply (record_egress_never_lowers_usage jan15 "a1" "c1" 40000
           (sample_db (sample_client 10000 0 204800 active) []
                      {[ ("c1"%string, (2026, 1)) := 19200000 ]} [] ∅)).
  lia.
Defined.

(** No call completes. A call either stops before it writes, at the
    conversion of the byte count or at the upsert (value out of range, or no
    such client), or it does the upsert and stops at the [SELECT] that names
    [egress_used_gb] without a table. *)
Theorem record_egress_always_fails (now : datetime) (new_id cid : uuid)
    (s : Z) (db : DB) :
  fst (record_egress now new_id cid s db)
  = Some (ER_NON_UNIQ_ERROR "egress_used_gb")
  \/ ((fst (record_egress now new_id cid s db) = Some ER_OUT_OF_RANGE
       \/ fst (record_egress now new_id cid s db) = Some ER_NO_REFERENCED_ROW)
      /\ snd (record_egress now new_id cid s db) = db).
Proof.
  rewrite record_egress_result.
  destruct (to_decimal 12 4 s GiB) as [v_gb|];
    [|right; split; [left|]; reflexivity].
  destruct (List.find _ (clients db)) as [c|];
    [|right; split; [right|]; reflexivity].
  destruct (upsert_egress _ _ _) as [eu|];
    [left; reflexivity | right; split; [left|]; reflexivity].
Qed.

(** For a client that exists and values that fit, at any percentage of the
    free limit: the call ends in the error of the ambiguous column, the
    download is added to the month's usage, and no alert is inserted. *)
Theorem record_egress_fails_after_upsert (now : datetime) (new_id cid : uuid)
    (s : Z) (db : DB) (c : Clients.row) :
  List.find (fun c => bool_decide (Clients.id c = cid)) (clients db) = Some c ->
  0 <= s ->
  0 <= get_client_monthly_egress now cid db ->
  get_client_monthly_egress now cid db + egress_gb s < 10 ^ 12 ->
  fst (record_egress now new_id cid s db)
  = Some (ER_NON_UNIQ_ERROR "egress_used_gb")
  /\ get_client_monthly_egress now cid (snd (record_egress now new_id cid s db))
     = get_client_monthly_egress now cid db + egress_gb s
  /\ alerts (snd (record_egress now new_id cid s db)) = alerts db.
Proof.
  intros Hc Hs H0 Hfit. split; [|split].
  - rewrite (record_egress_upserted now new_id cid s db c Hc Hs H0 Hfit).
    reflexivity.
  - apply (record_egress_step_usage now new_id cid s db c Hc Hs H0 Hfit).
  - apply record_egress_keeps_alerts.
Qed.

(** A tenant at 2048 GB of a 2048 GB limit downloads 1 GiB: the error, and
    2049 GB. *)
Lemma record_egress_fails_after_upsert_witness :
  fst (record_egress jan15 "a1" "c1" GiB
         (sample_db (sample_client 10000 0 204800 active) []
                    {[ ("c1"%string, (2026, 1)) := 20480000 ]} [] ∅))
  = Some (ER_NON_UNIQ_ERROR "egress_used_gb")
  /\ get_client_monthly_egress jan15 "c1"
       (snd (record_egress jan15 "a1" "c1" GiB
          (sample_db (sample_client 10000 0 204800 active) []
                     {[ ("c1"%string, (2026, 1)) := 20480000 ]} [] ∅)))
     = 20480000 + egress_gb GiB.
Proof.
  destruct (record_egress_fails_after_upsert jan15 "a1" "c1" GiB
              (sample_db (sample_client 10000 0 204800 active) []
                         {[ ("c1"%string, (2026, 1)) := 20480000 ]} [] ∅)
              (sample_client 10000 0 204800 active))
    as (H1 & H2 & _); try (vm_compute; first [reflexivity | discriminate]).
  split; [exact H1 | exact H2].
Defined.

(** ** [getDownloadUrl] *)

(** The handler, branch by branch. *)
Lemma getDownloadUrl_cases
    (s3 : option StorageConfig.row -> option string -> option string)
    (now : datetime) (new_id : uuid) (user : session_user) (fileId : uuid)
    (db : DB) :
  getDownloadUrl s3 now new_id user fileId db =
  match head (download_rows now fileId (uid user) db) with
  | None => (Err FILE_NOT_FOUND, db)
  | Some (f, c, e, cs) =>
      if negb (bool_decide (Clients.status c = active))
      then (Err ACCOUNT_SUSPENDED, db)
      else if blockOnOverage db
              && js_ge (parseFloat 4 e)
                       (parseFloat 2 (Clients.egress_free_limit_gb c))
      then (Err DOWNLOAD_LIMIT_EXCEEDED, db)
      else
        match s3 cs (Files.s3_key f) with
        | None => (Err StorageError, db)
        | Some downloadUrl =>
            match record_egress now new_id (Clients.id c) (Files.size_bytes f)
                                db with
            | (Some err, db1) => (Err (DatabaseError err), db1)
            | (None, db1) =>
                (Ok (downloadUrl, Files.name f),
                 with_activity_logs
                   (activity_logs db1
                    ++ [ActivityLogs.mk (Some (uid user)) (uname user)
                          (urole user) "file_download"
                          ("Downloaded file: " +:+ Files.name f) (Some fileId)])
                   (with_download_history
                      (download_history db1
                       ++ [DownloadHistory.mk (Clients.id c) fileId
                             (Files.name f) (Files.size_bytes f)]) db1))
            end
        end
  end.
Proof.
  unfold getDownloadUrl, bind, select, throw.
  destruct (head (download_rows now fileId (uid user) db))
    as [[[[f c] e] cs]|]; [|reflexivity].
  destruct (negb (bool_decide (Clients.status c = active))); [reflexivity|].
  destruct (blockOnOverage db && js_ge _ _); [reflexivity|].
  destruct (s3 cs (Files.s3_key f)); [|reflexivity].
  unfold execute, update, logActivity, ret.
  destruct (record_egress _ _ _ _ _) as [[err|] db1]; reflexivity.
Qed.

Lemma record_egress_error (now : datetime) (new_id cid : uuid) (s : Z)
    (db : DB) :
  exists err, fst (record_egress now new_id cid s db) = Some err.
Proof.
  rewrite record_egress_result.
  destruct (to_decimal 12 4 s GiB); [|eexists; reflexivity].
  destruct (List.find _ (clients db)); [|eexists; reflexivity].
  destruct (upsert_egress _ _ _); eexists; reflexivity.
Qed.

Lemma head_omap_Some {A B} (g : A -> option B) (l : list A) (y : B) :
  head (omap g l) = Some y -> exists x, x ∈ l /\ g x = Some y.
Proof.
  induction l as [|a l IH]; simpl; [discriminate|].
  destruct (g a) as [b|] eqn:Hg; simpl.
  - intros [= <-]. exists a. split; [left|exact Hg].
  - intros H. destruct (IH H) as (x & Hx & Hgx).
    exists x. split; [right; exact Hx|exact Hgx].
Qed.

Lemma head_omap_None {A B} (g : A -> option B) (l : list A) :
  head (omap g l) = None -> forall x, x ∈ l -> g x = None.
Proof.
  induction l as [|a l IH]; simpl; intros H x Hx; [inversion Hx|].
  destruct (g a) as [b|] eqn:Hg; [discriminate|].
  inversion Hx; subst; [exact Hg|]. apply IH; assumption.
Qed.

Lemma owner_Some (clientId userId : uuid) (db : DB) (c : Clients.row) :
  owner clientId userId db = Some c ->
  c ∈ clients db /\ Clients.id c = clientId /\ Clients.user_id c = userId.
Proof.
  unfold owner. intros H. apply List.find_some in H as [Hin Hp].
  apply andb_true_iff in Hp as [H1 H2].
  apply bool_decide_eq_true_1 in H1. apply bool_decide_eq_true_1 in H2.
  split; [apply list_elem_of_In; exact Hin|]. split; assumption.
Qed.

Lemma owner_is_Some (clientId userId : uuid) (db : DB) :
  is_Some (owner clientId userId db)
  <-> exists c, c ∈ clients db /\ Clients.id c = clientId
                /\ Clients.user_id c = userId.
Proof.
  split.
  - intros [c Hc]. exists c. apply owner_Some, Hc.
  - intros (c & Hin & Hid & Hu). unfold owner.
    destruct (List.find _ (clients db)) as [c'|] eqn:Hf; [eexists; reflexivity|].
    exfalso. apply list_elem_of_In in Hin.
    pose proof (List.find_none _ _ Hf c Hin) as Hn. simpl in Hn.
    rewrite !bool_decide_eq_true_2 in Hn by assumption. discriminate.
Qed.

Lemma download_rows_head (now : datetime) (fileId userId : uuid) (db : DB)
    (f : Files.row) (c : Clients.row) (e : Z) (cs : option StorageConfig.row) :
  head (download_rows now fileId userId db) = Some (f, c, e, cs) ->
  f ∈ files db /\ Files.id f = fileId /\ Files.deleted_at f = None
  /\ Files.type f = file
  /\ owner (Files.client_id f) userId db = Some c
  /\ e = get_client_monthly_egress now (Clients.id c) db.
Proof.
  unfold download_rows. intros H.
  apply head_omap_Some in H as (x & Hx & Hg).
  destruct (bool_decide (Files.id x = fileId)) eqn:H1; [|discriminate].
  destruct (bool_decide (Files.deleted_at x = None)) eqn:H2; [|discriminate].
  destruct (bool_decide (Files.type x = file)) eqn:H3; [|discriminate].
  simpl in Hg.
  destruct (owner (Files.client_id x) userId db) as [c'|] eqn:Ho; [|discriminate].
  injection Hg as <- <- <- <-.
  apply bool_decide_eq_true_1 in H1. apply bool_decide_eq_true_1 in H2.
  apply bool_decide_eq_true_1 in H3.
  repeat split; assumption.
Qed.

(** A download request that is refused, or whose presigned URL cannot be
    made, writes nothing: no egress is charged, and no history or activity
    row is added. Only an error of the database itself, raised by
    [record_egress], can come with a changed database. *)
Theorem getDownloadUrl_refusal_writes_nothing
    (s3 : option StorageConfig.row -> option string -> option string)
    (now : datetime) (new_id : uuid) (user : session_user) (fileId : uuid)
    (db : DB) (e : AppError) :
  fst (getDownloadUrl s3 now new_id user fileId db) = Err e ->
  (forall err, e <> DatabaseError err) ->
  snd (getDownloadUrl s3 now new_id user fileId db) = db.
Proof.
  rewrite getDownloadUrl_cases. intros He Hne.
  destruct (head (download_rows now fileId (uid user) db))
    as [[[[f c] u] cs]|]; [|reflexivity].
  destruct (negb (bool_decide (Clients.status c = active))); [reflexivity|].
  destruct (blockOnOverage db && js_ge _ _); [reflexivity|].
  destruct (s3 cs (Files.s3_key f)); [|reflexivity].
  destruct (record_egress _ _ _ _ _) as [[err|] db1]; simpl in *.
  - injection He as <-. exfalso. exact (Hne err eq_refl).
  - discriminate.
Qed.

(** The presign call throws: the request fails and the usage of January
    stays at 100 GB. *)
Lemma getDownloadUrl_refusal_writes_nothing_witness :
  snd (getDownloadUrl s3_down_fail jan15 "a1" sample_user "f1"
         (sample_db (sample_client 10000 100 204800 active)
            [sample_file "f1" GiB (Some "etag"%string) None]
            {[ ("c1"%string, (2026, 1)) := 1000000 ]} [] ∅))
  = sample_db (sample_client 10000 100 204800 active)
      [sample_file "f1" GiB (Some "etag"%string) None]
      {[ ("c1"%string, (2026, 1)) := 1000000 ]} [] ∅.
Proof.
  apply (getDownloadUrl_refusal_writes_nothing s3_down_fail jan15 "a1"
           sample_user "f1" _ StorageError).
  - vm_compute. reflexivity.
  - discriminate.
Defined.

(** A download request gets past FILE_NOT_FOUND only for a row of [files]
    with the requested id that is a file, is not soft-deleted, and belongs
    to a client whose user is the requesting user. For any other id -- that
    of a folder, of a deleted file, of a file of another client -- the
    answer is FILE_NOT_FOUND and nothing is written or charged. *)
Theorem getDownloadUrl_finds_only_own_live_files
    (s3 : option StorageConfig.row -> option string -> option string)
    (now : datetime) (new_id : uuid) (user : session_user) (fileId : uuid)
    (db : DB) :
  (fst (getDownloadUrl s3 now new_id user fileId db) <> Err FILE_NOT_FOUND ->
   exists f c,
     f ∈ files db /\ c ∈ clients db
     /\ Files.id f = fileId
     /\ Files.type f = file /\ Files.deleted_at f = None
     /\ Files.client_id f = Clients.id c
     /\ Clients.user_id c = uid user)
  /\ (~ (exists f c,
           f ∈ files db /\ c ∈ clients db
           /\ Files.id f = fileId
           /\ Files.type f = file /\ Files.deleted_at f = None
           /\ Files.client_id f = Clients.id c
           /\ Clients.user_id c = uid user) ->
      getDownloadUrl s3 now new_id user fileId db = (Err FILE_NOT_FOUND, db)).
Proof.
  rewrite getDownloadUrl_cases.
  destruct (head (download_rows now fileId (uid user) db))
    as [[[[f c] u] cs]|] eqn:Hrow.
  - apply download_rows_head in Hrow as (Hin & Hid & Hdel & Hty & Ho & _).
    apply owner_Some in Ho as (Hc & Hcid & Hu).
    assert (Hex : exists f c,
              f ∈ files db /\ c ∈ clients db
              /\ Files.id f = fileId
              /\ Files.type f = file /\ Files.deleted_at f = None
              /\ Files.client_id f = Clients.id c
              /\ Clients.user_id c = uid user).
    { exists f, c. repeat split; try assumption. symmetry. exact Hcid. }
    split; [intros _; exact Hex | intros Hno; contradiction].
  - split; [intros H; exfalso; apply H; reflexivity | reflexivity].
Qed.

(** No download request is answered: whatever the file, the client and the
    usage, [getDownloadUrl] ends in an error -- one of its own refusals, the
    error of the presign call, or the error with which [record_egress]
    always ends. *)
Theorem getDownloadUrl_never_answers
    (s3 : option StorageConfig.row -> option string -> option string)
    (now : datetime) (new_id : uuid) (user : session_user) (fileId : uuid)
    (db : DB) :
  exists e, fst (getDownloadUrl s3 now new_id user fileId db) = Err e.
Proof.
  rewrite getDownloadUrl_cases.
  destruct (head (download_rows now fileId (uid user) db))
    as [[[[f c] u] cs]|]; [|eexists; reflexivity].
  destruct (negb (bool_decide (Clients.status c = active)));
    [eexists; reflexivity|].
  destruct (blockOnOverage db && js_ge _ _); [eexists; reflexivity|].
  destruct (s3 cs (Files.s3_key f)); [|eexists; reflexivity].
  destruct (record_egress_error now new_id (Clients.id c) (Files.size_bytes f)
              db) as [err Herr].
  destruct (record_egress _ _ _ _ _) as [[err'|] db1];
    [eexists; reflexivity | discriminate].
Qed.

(** A request that passes every check of the handler and gets its presigned
    URL is charged and not answered: [record_egress] adds the file's GB value
    to the client's usage of the month and then fails, so the handler ends in
    that database error, the URL is not returned, and neither the
    [download_history] row nor the activity row is written. *)
Theorem getDownloadUrl_charges_without_answer
    (s3 : option StorageConfig.row -> option string -> option string)
    (now : datetime) (new_id : uuid) (user : session_user) (fileId : uuid)
    (db : DB) (url : string)
    (f : Files.row) (c : Clients.row) (e : Z) (cs : option StorageConfig.row) :
  head (download_rows now fileId (uid user) db) = Some (f, c, e, cs) ->
  Clients.status c = active ->
  blockOnOverage db
  && js_ge (parseFloat 4 e) (parseFloat 2 (Clients.egress_free_limit_gb c))
  = false ->
  s3 cs (Files.s3_key f) = Some url ->
  0 <= Files.size_bytes f ->
  0 <= e ->
  e + egress_gb (Files.size_bytes f) < 10 ^ 12 ->
  fst (getDownloadUrl s3 now new_id user fileId db)
  = Err (DatabaseError (ER_NON_UNIQ_ERROR "egress_used_gb"))
  /\ get_client_monthly_egress now (Clients.id c)
       (snd (getDownloadUrl s3 now new_id user fileId db))
     = e + egress_gb (Files.size_bytes f)
  /\ download_history (snd (getDownloadUrl s3 now new_id user fileId db))
     = download_history db
  /\ activity_logs (snd (getDownloadUrl s3 now new_id user fileId db))
     = activity_logs db.
Proof.
  intros Hrow Hst Hb Hs3 Hsz He Hfit.
  pose proof (download_rows_head _ _ _ _ _ _ _ _ Hrow)
    as (_ & _ & _ & _ & Ho & Hu).
  subst e.
  assert (Hfind : exists c',
            List.find (fun c' => bool_decide (Clients.id c' = Clients.id c))
                      (clients db) = Some c').
  { destruct (List.find _ (clients db)) as [c'|] eqn:Hf; [eexists; reflexivity|].
    exfalso. apply owner_Some in Ho as (Hin & _ & _).
    apply list_elem_of_In in Hin.
    pose proof (List.find_none _ _ Hf c Hin) as Hn. simpl in Hn.
    rewrite bool_decide_eq_true_2 in Hn by reflexivity. discriminate. }
  destruct Hfind as [c' Hfind].
  rewrite getDownloadUrl_cases, Hrow, (bool_decide_eq_true_2 _ Hst), Hb, Hs3.
  simpl.
  pose proof (record_egress_step_usage now new_id (Clients.id c)
                (Files.size_bytes f) db c' Hfind Hsz He Hfit) as Husage.
  rewrite (record_egress_upserted now new_id (Clients.id c)
             (Files.size_bytes f) db c' Hfind Hsz He Hfit) in Husage |- *.
  simpl in Husage |- *. split; [reflexivity|]. split; [exact Husage|].
  destruct db; split; reflexivity.
Qed.

(** A file of 1 GiB requested at 100 GB of usage: the error, and 101 GB. *)
Lemma getDownloadUrl_charges_without_answer_witness :
  fst (getDownloadUrl s3_down_ok jan15 "a1" sample_user "f1"
         (sample_db (sample_client 10000 100 204800 active)
            [sample_file "f1" GiB (Some "etag"%string) None]
            {[ ("c1"%string, (2026, 1)) := 1000000 ]} [] ∅))
  = Err (DatabaseError (ER_NON_UNIQ_ERROR "egress_used_gb"))
  /\ get_client_monthly_egress jan15 "c1"
       (snd (getDownloadUrl s3_down_ok jan15 "a1" sample_user "f1"
               (sample_db (sample_client 10000 100 204800 active)
                  [sample_file "f1" GiB (Some "etag"%string) None]
                  {[ ("c1"%string, (2026, 1)) := 1000000 ]} [] ∅)))
     = 1000000 + egress_gb GiB.
Proof.
  destruct (getDownloadUrl_charges_without_answer s3_down_ok jan15 "a1"
              sample_user "f1"
              (sample_db (sample_client 10000 100 204800 active)
                 [sample_file "f1" GiB (Some "etag"%string) None]
                 {[ ("c1"%string, (2026, 1)) := 1000000 ]} [] ∅)
              "https://get/tenants/c1/report.pdf"
              (sample_file "f1" GiB (Some "etag"%string) None)
              (sample_client 10000 100 204800 active) 1000000
              (Some (sample_config true)))
    as (H1 & H2 & _);
    try (vm_compute; first [reflexivity | discriminate]).
  split; [exact H1 | exact H2].
Defined.

(** ** [markAlertRead] *)

Lemma filter_nonempty_iff {A} (p : A -> bool) (l : list A) :
  List.filter p l <> [] <-> exists x, x ∈ l /\ p x = true.
Proof.
  induction l as [|a l IH]; simpl.
  - split; [congruence|]. intros (x & Hx & _). inversion Hx.
  - destruct (p a) eqn:Hp.
    + split; [|discriminate]. intros _. exists a. split; [left|exact Hp].
    + rewrite IH. split.
      * intros (x & Hx & Hpx). exists x. split; [right; exact Hx|exact Hpx].
      * intros (x & Hx & Hpx). inversion Hx; subst; [congruence|].
        exists x. split; assumption.
Qed.

Lemma alert_rows_nonempty (alertId userId : uuid) (db : DB) :
  alert_rows alertId userId db <> []
  <-> exists a c, a ∈ alerts db /\ c ∈ clients db
                  /\ Alerts.id a = alertId
                  /\ Alerts.client_id a = Clients.id c
                  /\ Clients.user_id c = userId.
Proof.
  unfold alert_rows. rewrite filter_nonempty_iff. split.
  - intros (a & Ha & Hp). apply andb_true_iff in Hp as [H1 H2].
    apply bool_decide_eq_true_1 in H1. apply bool_decide_eq_true_1 in H2.
    apply owner_is_Some in H2 as (c & Hc & Hid & Hu).
    exists a, c. repeat split; try assumption. symmetry. exact Hid.
  - intros (a & c & Ha & Hc & Hid & Hcid & Hu). exists a. split; [exact Ha|].
    apply andb_true_iff. split; [apply bool_decide_eq_true_2; exact Hid|].
    apply bool_decide_eq_true_2, owner_is_Some.
    exists c. repeat split; try assumption. symmetry. exact Hcid.
Qed.

(** The handler, branch by branch. *)
Lemma markAlertRead_cases (user : session_user) (alertId : uuid) (db : DB) :
  markAlertRead user alertId db =
  if bool_decide (alert_rows alertId (uid user) db = [])
  then (Err ALERT_NOT_FOUND, db)
  else (Ok tt,
        with_alerts
          (map (fun a => if bool_decide (Alerts.id a = alertId)
                         then set_true "is_read" a else a) (alerts db)) db).
Proof.
  unfold markAlertRead, bind, select, throw, execute, update_alerts_set_true, ret.
  destruct (bool_decide (alert_rows alertId (uid user) db = [])); reflexivity.
Qed.

Lemma mark_read_keeps (alertId : uuid) (a : Alerts.row) :
  Alerts.id (if bool_decide (Alerts.id a = alertId)
             then set_true "is_read" a else a) = Alerts.id a
  /\ Alerts.client_id (if bool_decide (Alerts.id a = alertId)
                       then set_true "is_read" a else a) = Alerts.client_id a.
Proof. case_bool_decide; split; reflexivity. Qed.

Lemma mark_read_idem (alertId : uuid) (a : Alerts.row) :
  (if bool_decide
        (Alerts.id (if bool_decide (Alerts.id a = alertId)
                    then set_true "is_read" a else a) = alertId)
   then set_true "is_read" (if bool_decide (Alerts.id a = alertId)
                            then set_true "is_read" a else a)
   else (if bool_decide (Alerts.id a = alertId)
         then set_true "is_read" a else a))
  = (if bool_decide (Alerts.id a = alertId) then set_true "is_read" a else a).
Proof.
  destruct (bool_decide (Alerts.id a = alertId)) eqn:E.
  - change (set_true "is_read" a)
      with (Alerts.mk (Alerts.id a) (Alerts.client_id a) (Alerts.alert_type a)
                      (Alerts.message a) (Alerts.threshold_percent a) true
                      (Alerts.created_at a)).
    simpl. rewrite E. reflexivity.
  - rewrite E. reflexivity.
Qed.

Lemma alert_rows_mark_read (alertId alertId' userId : uuid) (db : DB) :
  alert_rows alertId userId
    (with_alerts
       (map (fun a => if bool_decide (Alerts.id a = alertId')
                      then set_true "is_read" a else a) (alerts db)) db)
  = map (fun a => if bool_decide (Alerts.id a = alertId')
                  then set_true "is_read" a else a)
        (alert_rows alertId userId db).
Proof.
  unfold alert_rows.
  rewrite (List.filter_ext _
             (fun a => bool_decide (Alerts.id a = alertId)
                       && bool_decide (is_Some (owner (Alerts.client_id a)
                                                      userId db))))
    by (intros a; destruct db; reflexivity).
  replace (alerts (with_alerts _ db))
    with (map (fun a => if bool_decide (Alerts.id a = alertId')
                        then set_true "is_read" a else a) (alerts db))
    by (destruct db; reflexivity).
  induction (alerts db) as [|a l IH]; [reflexivity|].
  simpl. destruct (mark_read_keeps alertId' a) as [-> ->].
  destruct (bool_decide (Alerts.id a = alertId)
            && bool_decide (is_Some (owner (Alerts.client_id a) userId db)));
    simpl; rewrite IH; reflexivity.
Qed.

(** [markAlertRead] succeeds exactly for an alert of the requesting user's
    own client: when some row of [alerts] has the id and belongs to a client
    of that user the call succeeds, and otherwise it fails with
    ALERT_NOT_FOUND and nothing is written -- an alert of another client
    cannot be marked. *)
Theorem markAlertRead_succeeds_iff_owned (user : session_user) (alertId : uuid)
    (db : DB) :
  ((exists a c, a ∈ alerts db /\ c ∈ clients db
                /\ Alerts.id a = alertId
                /\ Alerts.client_id a = Clients.id c
                /\ Clients.user_id c = uid user)
   -> fst (markAlertRead user alertId db) = Ok tt)
  /\ (~ (exists a c, a ∈ alerts db /\ c ∈ clients db
                     /\ Alerts.id a = alertId
                     /\ Alerts.client_id a = Clients.id c
                     /\ Clients.user_id c = uid user)
      -> markAlertRead user alertId db = (Err ALERT_NOT_FOUND, db)).
Proof.
  rewrite markAlertRead_cases, <- alert_rows_nonempty.
  case_bool_decide as H; split; intros H'; try reflexivity; contradiction.
Qed.

(** Marking an alert as read twice is the same as marking it once: the
    second call answers as the first did and leaves the database as the
    first left it. *)
Theorem markAlertRead_idempotent (user : session_user) (alertId : uuid)
    (db : DB) :
  markAlertRead user alertId (snd (markAlertRead user alertId db))
  = (fst (markAlertRead user alertId db), snd (markAlertRead user alertId db)).
Proof.
  rewrite (markAlertRead_cases user alertId db).
  case_bool_decide as H; simpl.
  - rewrite markAlertRead_cases. rewrite bool_decide_eq_true_2 by exact H.
    reflexivity.
  - rewrite markAlertRead_cases, alert_rows_mark_read.
    rewrite bool_decide_eq_false_2.
    + destruct db; unfold with_alerts; simpl. f_equal. f_equal.
      rewrite <- list_fmap_compose. apply list_fmap_ext.
      intros ? a _. simpl. apply mark_read_idem.
    + intros Hnil. apply fmap_nil_inv in Hnil. contradiction.
Qed.

(** A call that succeeds marks what it was asked to mark and nothing else:
    afterwards every alert with the given id is read, the alerts with other
    ids are the same rows as before, no alert was added or removed, and no
    other table was written. *)
Theorem markAlertRead_reads_only_target (user : session_user) (alertId : uuid)
    (db : DB) :
  fst (markAlertRead user alertId db) = Ok tt ->
  (forall a, a ∈ alerts (snd (markAlertRead user alertId db)) ->
             Alerts.id a = alertId -> Alerts.is_read a = true)
  /\ List.filter (fun a => negb (bool_decide (Alerts.id a = alertId)))
                 (alerts (snd (markAlertRead user alertId db)))
     = List.filter (fun a => negb (bool_decide (Alerts.id a = alertId)))
                   (alerts db)
  /\ map Alerts.id (alerts (snd (markAlertRead user alertId db)))
     = map Alerts.id (alerts db)
  /\ clients (snd (markAlertRead user alertId db)) = clients db
  /\ files (snd (markAlertRead user alertId db)) = files db
  /\ egress_usage (snd (markAlertRead user alertId db)) = egress_usage db.
Proof.
  rewrite markAlertRead_cases. case_bool_decide as H; [discriminate|].
  intros _. simpl.
  replace (alerts (with_alerts _ db))
    with (map (fun a => if bool_decide (Alerts.id a = alertId)
                        then set_true "is_read" a else a) (alerts db))
    by (destruct db; reflexivity).
  split; [|split; [|split; [|destruct db; repeat split; reflexivity]]].
  - intros a Ha Hid. apply list_elem_of_fmap in Ha as (a0 & -> & _).
    destruct (mark_read_keeps alertId a0) as [Hk _]. rewrite Hk in Hid.
    rewrite bool_decide_eq_true_2 by exact Hid. reflexivity.
  - induction (alerts db) as [|a l IH]; [reflexivity|].
    simpl. destruct (mark_read_keeps alertId a) as [-> _].
    case_bool_decide as Hid; simpl; rewrite IH; reflexivity.
  - rewrite <- list_fmap_compose. apply list_fmap_ext.
    intros ? a _. simpl. apply mark_read_keeps.
Qed.

(** The user marks the first of two alerts: it is read, the second is as it
    was. *)
Lemma markAlertRead_reads_only_target_witness :
  map Alerts.is_read
    (alerts (snd (markAlertRead sample_user "a1"
       (sample_db (sample_client 10000 0 204800 active) [] ∅
          [sample_alert "a1" egress_warning 80 false jan15;
           sample_alert "a2" egress_warning 90 false jan16] ∅))))
  = [true; false]
  /\ List.filter (fun a => negb (bool_decide (Alerts.id a = "a1"%string)))
       (alerts (snd (markAlertRead sample_user "a1"
          (sample_db (sample_client 10000 0 204800 active) [] ∅
             [sample_alert "a1" egress_warning 80 false jan15;
              sample_alert "a2" egress_warning 90 false jan16] ∅))))
     = [sample_alert "a2" egress_warning 90 false jan16].
Proof.
  split; [vm_compute; reflexivity|].
  etransitivity.
  - refine (proj1 (proj2 (markAlertRead_reads_only_target sample_user "a1"
      (sample_db (sample_client 10000 0 204800 active) [] ∅
         [sample_alert "a1" egress_warning 80 false jan15;
          sample_alert "a2" egress_warning 90 false jan16] ∅) _))).
    vm_compute. reflexivity.
  - vm_compute. reflexivity.
Defined.

(** ** [confirmUpload] *)

(** The handler, branch by branch. *)
Lemma confirmUpload_cases (user : session_user) (fileId : uuid)
    (etag : string) (db : DB) :
  confirmUpload user fileId etag db =
  match head (confirm_rows fileId (uid user) db) with
  | None => (Err FILE_NOT_FOUND, db)
  | Some f =>
      match update_etag fileId etag db with
      | (Some e, db1) => (Err (DatabaseError e), db1)
      | (None, db1) =>
          match recalculate_client_storage (Files.client_id f) db1 with
          | (Some e, db2) => (Err (DatabaseError e), db2)
          | (None, db2) =>
              (Ok tt,
               with_activity_logs
                 (activity_logs db2
                  ++ [ActivityLogs.mk (Some (uid user)) (uname user)
                        (urole user) "file_upload_complete"
                        ("Uploaded file: " +:+ Files.name f) (Some fileId)])
                 db2)
          end
      end
  end.
Proof.
  unfold confirmUpload, bind, select, throw.
  destruct (head (confirm_rows fileId (uid user) db)) as [f|]; [|reflexivity].
  unfold update, execute, logActivity, ret.
  destruct (update_etag fileId etag db) as [[e|] db1]; [reflexivity|].
  destruct (recalculate_client_storage _ _) as [[e|] db2]; reflexivity.
Qed.

Lemma confirm_rows_nonempty (fileId userId : uuid) (db : DB) :
  confirm_rows fileId userId db <> []
  <-> exists f c, f ∈ files db /\ c ∈ clients db
                  /\ Files.id f = fileId
                  /\ Files.client_id f = Clients.id c
                  /\ Clients.user_id c = userId.
Proof.
  unfold confirm_rows. rewrite filter_nonempty_iff. split.
  - intros (f & Hf & Hp). apply andb_true_iff in Hp as [H1 H2].
    apply bool_decide_eq_true_1 in H1. apply bool_decide_eq_true_1 in H2.
    apply owner_is_Some in H2 as (c & Hc & Hid & Hu).
    exists f, c. repeat split; try assumption. symmetry. exact Hid.
  - intros (f & c & Hf & Hc & Hid & Hcid & Hu). exists f. split; [exact Hf|].
    apply andb_true_iff. split; [apply bool_decide_eq_true_2; exact Hid|].
    apply bool_decide_eq_true_2, owner_is_Some.
    exists c. repeat split; try assumption. symmetry. exact Hcid.
Qed.

(** [confirmUpload] answers FILE_NOT_FOUND, and writes nothing, exactly when
    no row of [files] with the id belongs to a client of the requesting
    user. The row need not be a live file: the handler tests neither
    [deleted_at] nor [type]. *)
Theorem confirmUpload_needs_own_row (user : session_user) (fileId : uuid)
    (etag : string) (db : DB) :
  (~ (exists f c, f ∈ files db /\ c ∈ clients db
                  /\ Files.id f = fileId
                  /\ Files.client_id f = Clients.id c
                  /\ Clients.user_id c = uid user)
   -> confirmUpload user fileId etag db = (Err FILE_NOT_FOUND, db))
  /\ ((exists f c, f ∈ files db /\ c ∈ clients db
                   /\ Files.id f = fileId
                   /\ Files.client_id f = Clients.id c
                   /\ Clients.user_id c = uid user)
      -> fst (confirmUpload user fileId etag db) <> Err FILE_NOT_FOUND).
Proof.
  rewrite confirmUpload_cases, <- confirm_rows_nonempty.
  destruct (confirm_rows fileId (uid user) db) as [|f l]; simpl.
  - split; [reflexivity|]. intros H. contradiction.
  - split; [intros H; exfalso; apply H; discriminate|].
    intros _. destruct (update_etag fileId etag db) as [[e|] db1];
      [discriminate|].
    destruct (recalculate_client_storage _ _) as [[e|] db2]; discriminate.
Qed.

Lemma filter_none {A} (p : A -> bool) (l : list A) :
  Forall (fun x => p x = false) l -> List.filter p l = [].
Proof.
  induction 1 as [|x l Hx _ IH]; [reflexivity|]. simpl. rewrite Hx. exact IH.
Qed.

Lemma client_of_user_owner (userId : uuid) (db : DB) (client : Clients.row)
    (cs : option StorageConfig.row) :
  client_of_user userId db = Some (client, cs) ->
  client ∈ clients db /\ Clients.user_id client = userId
  /\ is_Some (owner (Clients.id client) userId db).
Proof.
  unfold client_of_user.
  destruct (List.find _ (clients db)) as [c|] eqn:Hf; [|discriminate].
  intros [= <- _]. apply List.find_some in Hf as [Hin Hu].
  apply bool_decide_eq_true_1 in Hu. apply list_elem_of_In in Hin.
  split; [exact Hin|]. split; [exact Hu|].
  apply owner_is_Some. exists c. repeat split; assumption.
Qed.

(** Upload, then confirm. After [getUploadUrl] has answered for a file of
    [fileSize] bytes under a fresh id, [confirmUpload] of the id it returned,
    with an etag of at most 255 characters, succeeds, stores the etag on
    that row, and writes as the client's [storage_used_gb] the rounded GB
    value of the client's earlier live total plus [fileSize] (provided it
    fits the column). *)
Theorem confirmUpload_after_getUploadUrl
    (s3 : option StorageConfig.row -> string -> string -> Z -> option string)
    (new_id : uuid) (user : session_user) (fileName : string) (fileSize : Z)
    (mimeType : string) (parentId : option uuid) (etag : string)
    (db db1 : DB) (client : Clients.row) (cs : option StorageConfig.row)
    (url key : string) (fid : uuid) :
  client_of_user (uid user) db = Some (client, cs) ->
  getUploadUrl s3 new_id user fileName fileSize mimeType parentId db
  = (Ok (url, fid, key), db1) ->
  Forall (fun f => Files.id f <> new_id) (files db) ->
  (String.length etag <= 255)%nat ->
  Z.abs (round_half_away
           ((sum_size_bytes (Clients.id client) (files db) + fileSize) * 10 ^ 2)
           GiB) < 10 ^ 10 ->
  exists db2,
    confirmUpload user fid etag db1 = (Ok tt, db2)
    /\ (forall c, c ∈ clients db2 -> Clients.id c = Clients.id client ->
          Clients.storage_used_gb c
          = round_half_away
              ((sum_size_bytes (Clients.id client) (files db) + fileSize)
               * 10 ^ 2) GiB)
    /\ (exists f, f ∈ files db2 /\ Files.id f = fid
                  /\ Files.client_id f = Clients.id client
                  /\ Files.size_bytes f = fileSize
                  /\ Files.s3_etag f = Some etag).
Proof.
  intros Hc Hup Hfresh Hetag Hfit.
  destruct (client_of_user_owner _ _ _ _ Hc) as (_ & _ & Hown).
  rewrite getUploadUrl_cases, Hc in Hup.
  destruct (negb (bool_decide (Clients.status client = active)));
    [discriminate|].
  destruct (negb (verified cs)); [discriminate|].
  destruct (js_gt _ _); [discriminate|].
  simpl in Hup. destruct (s3 _ _ _ _); [|discriminate].
  destruct (files_row_error _); [discriminate|].
  destruct (parent_exists parentId db); [|discriminate].
  injection Hup as _ <- _ <-.
  set (nf := new_file new_id (Clients.id client) fileName fileSize mimeType
               (upload_path fileName parentId (Clients.id client) db) parentId
               (upload_key cs (upload_path fileName parentId (Clients.id client)
                                 db) fileName)).
  rewrite confirmUpload_cases.
  assert (Hrows : confirm_rows new_id (uid user)
            (with_activity_logs
               (activity_logs db
                ++ [ActivityLogs.mk (Some (uid user)) (uname user) (urole user)
                      "file_upload_init" ("Initiated upload: " +:+ fileName)
                      (Some new_id)])
               (with_files (files db ++ [nf]) db)) = [nf]).
  { unfold confirm_rows. simpl. rewrite List.filter_app.
    rewrite filter_none.
    - simpl. rewrite bool_decide_eq_true_2 by reflexivity.
      rewrite bool_decide_eq_true_2; [reflexivity|].
      destruct db; exact Hown.
    - eapply Forall_impl; [exact Hfresh|]. intros f Hne. simpl in Hne.
      rewrite bool_decide_eq_false_2 by exact Hne. reflexivity. }
  rewrite Hrows. simpl. unfold update_etag.
  assert (fits_varchar 255 etag = true) as ->
    by (unfold fits_varchar; apply Z.leb_le; lia).
  rewrite andb_false_r. simpl.
  assert (Hsum : sum_size_bytes (Clients.id client)
                   (map (set_etag new_id (Some etag)) (files db ++ [nf]))
                 = sum_size_bytes (Clients.id client) (files db) + fileSize).
  { rewrite sum_size_bytes_set_etag, sum_size_bytes_snoc.
    unfold counted, nf, new_file. simpl.
    rewrite !bool_decide_eq_true_2 by reflexivity. reflexivity. }
  rewrite recalculate_success by (simpl; rewrite Hsum; exact Hfit).
  simpl. rewrite Hsum. eexists. split; [reflexivity|]. split.
  - simpl. intros c Hin Hid.
    apply list_elem_of_fmap in Hin as (c0 & -> & _).
    rewrite set_storage_used_id in Hid. apply set_storage_used_at, Hid.
  - exists (set_etag new_id (Some etag) nf). simpl. split.
    + rewrite fmap_app. apply elem_of_app. right. simpl. left.
    + unfold set_etag, nf, new_file. simpl.
      rewrite bool_decide_eq_true_2 by reflexivity. simpl.
      repeat split; reflexivity.
Qed.

(** An upload of 1.5 GiB that is then confirmed: the usage written is
    1.50 GB. *)
Lemma confirmUpload_after_getUploadUrl_witness :
  exists db2,
    confirmUpload sample_user "f1" "etag"
      (snd (getUploadUrl s3_up_ok "f1" sample_user "report.pdf" 1610612736
              "application/pdf" None
              (sample_db (sample_client 10000 0 204800 active) [] ∅ [] ∅)))
    = (Ok tt, db2)
    /\ (forall c, c ∈ clients db2 -> Clients.id c = "c1"%string ->
          Clients.storage_used_gb c = 150).
Proof.
  destruct (confirmUpload_after_getUploadUrl s3_up_ok "f1" sample_user
              "report.pdf" 1610612736 "application/pdf" None "etag"
              (sample_db (sample_client 10000 0 204800 active) [] ∅ [] ∅)
              (snd (getUploadUrl s3_up_ok "f1" sample_user "report.pdf"
                      1610612736 "application/pdf" None
                      (sample_db (sample_client 10000 0 204800 active) []
                                 ∅ [] ∅)))
              (sample_client 10000 0 204800 active) (Some (sample_config true))
              "https://put/tenants/c1/report.pdf/report.pdf"
              "tenants/c1/report.pdf/report.pdf" "f1")
    as (db2 & H1 & H2 & _).
  - reflexivity.
  - vm_compute. reflexivity.
  - constructor.
  - simpl. lia.
  - vm_compute. reflexivity.
  - exists db2. split; [exact H1|]. exact H2.
Defined.

(** ** [getUploadUrl] once more *)

(** An authorized upload reserves nothing. The handler tests the quota
    against the client's stored [storage_used_gb], which it does not write:
    after a request was answered, a second request of the same size by the
    same user finds the same client row and passes the status, configuration
    and quota checks again -- it can only fail at the presign call or at the
    [INSERT]. *)
Theorem getUploadUrl_reserves_nothing
    (s3 : option StorageConfig.row -> string -> string -> Z -> option string)
    (new_id : uuid) (user : session_user) (fileName : string) (fileSize : Z)
    (mimeType : string) (parentId : option uuid) (db db1 : DB)
    (r : string * uuid * string) :
  getUploadUrl s3 new_id user fileName fileSize mimeType parentId db
  = (Ok r, db1) ->
  client_of_user (uid user) db1 = client_of_user (uid user) db
  /\ (forall s3' new_id' fileName' mimeType' parentId' e,
        fst (getUploadUrl s3' new_id' user fileName' fileSize mimeType'
               parentId' db1) = Err e ->
        e = StorageError \/ exists err, e = DatabaseError err).
Proof.
  intros Hup. rewrite getUploadUrl_cases in Hup.
  destruct (client_of_user (uid user) db) as [[client cs]|] eqn:Hc;
    [|discriminate].
  destruct (negb (bool_decide (Clients.status client = active))) eqn:Hst;
    [discriminate|].
  destruct (negb (verified cs)) eqn:Hv; [discriminate|].
  destruct (js_gt _ _) eqn:Hq; [discriminate|].
  simpl in Hup. destruct (s3 _ _ _ _); [|discriminate].
  destruct (files_row_error _); [discriminate|].
  destruct (parent_exists parentId db); [|discriminate].
  injection Hup as _ <-.
  assert (Hc1 : client_of_user (uid user)
            (with_activity_logs
               (activity_logs db
                ++ [ActivityLogs.mk (Some (uid user)) (uname user) (urole user)
                      "file_upload_init" ("Initiated upload: " +:+ fileName)
                      (Some new_id)])
               (with_files
                  (files db
                   ++ [new_file new_id (Clients.id client) fileName fileSize
                         mimeType
                         (upload_path fileName parentId (Clients.id client) db)
                         parentId
                         (upload_key cs
                            (upload_path fileName parentId (Clients.id client)
                               db) fileName)]) db))
          = Some (client, cs)) by (rewrite <- Hc; reflexivity).
  split; [exact Hc1|].
  intros s3' new_id' fileName' mimeType' parentId' e.
  rewrite getUploadUrl_cases, Hc1, Hst, Hv, Hq. simpl.
  destruct (s3' _ _ _ _); [|intros [= <-]; left; reflexivity].
  destruct (files_row_error _) as [err|];
    [intros [= <-]; right; eexists; reflexivity|].
  destruct (parent_exists parentId' _); [discriminate|].
  intros [= <-]. right. eexists. reflexivity.
Qed.

(** A client with 1 GB of quota asks twice for an upload of 1 GiB: both
    requests are answered, and the rows of the two pending uploads declare
    2 GiB. *)
Lemma getUploadUrl_reserves_nothing_witness :
  fst (getUploadUrl s3_up_ok "f2" sample_user "b.bin" GiB
         "application/octet-stream" None
         (snd (getUploadUrl s3_up_ok "f1" sample_user "a.bin" GiB
                 "application/octet-stream" None
                 (sample_db (sample_client 100 0 204800 active) [] ∅ [] ∅))))
  = Ok ("https://put/tenants/c1/b.bin/b.bin"%string, "f2"%string,
        "tenants/c1/b.bin/b.bin"%string)
  /\ client_of_user "u1"
       (snd (getUploadUrl s3_up_ok "f1" sample_user "a.bin" GiB
               "application/octet-stream" None
               (sample_db (sample_client 100 0 204800 active) [] ∅ [] ∅)))
     = client_of_user "u1"
         (sample_db (sample_client 100 0 204800 active) [] ∅ [] ∅).
Proof.
  split; [vm_compute; reflexivity|].
  refine (proj1 (getUploadUrl_reserves_nothing s3_up_ok "f1" sample_user "a.bin"
                   GiB "application/octet-stream" None
                   (sample_db (sample_client 100 0 204800 active) [] ∅ [] ∅) _
                   ("https://put/tenants/c1/a.bin/a.bin"%string, "f1"%string,
                    "tenants/c1/a.bin/a.bin"%string) _)).
  vm_compute. reflexivity.
Defined.

(** ** [createFolder] *)

(** The handler, branch by branch. *)
Lemma createFolder_cases (new_id : uuid) (user : session_user) (name : string)
    (parentId : option uuid) (db : DB) :
  createFolder new_id user name parentId db =
  match List.find (fun c => bool_decide (Clients.user_id c = uid user))
                  (clients db) with
  | None => (Err CLIENT_NOT_FOUND, db)
  | Some client =>
      match files_row_error
              (Files.mk new_id (Clients.id client) name 0 folder None
                 (upload_path name parentId (Clients.id client) db)
                 parentId None None None) with
      | Some e => (Err (DatabaseError e), db)
      | None =>
          if parent_exists parentId db then
            (Ok new_id,
             with_activity_logs
               (activity_logs db
                ++ [ActivityLogs.mk (Some (uid user)) (uname user) (urole user)
                      "folder_create" ("Created folder: " +:+ name)
                      (Some new_id)])
               (with_files
                  (files db
                   ++ [Files.mk new_id (Clients.id client) name 0 folder None
                         (upload_path name parentId (Clients.id client) db)
                         parentId None None None]) db))
          else (Err (DatabaseError ER_NO_REFERENCED_ROW), db)
      end
  end.
Proof.
  unfold createFolder, bind, select, throw, execute, insert_file, logActivity,
    update, ret.
  destruct (List.find _ (clients db)) as [client|]; [|reflexivity].
  simpl. destruct (files_row_error _); [reflexivity|].
  simpl. destruct (parent_exists parentId db); reflexivity.
Qed.

(** The row of a folder fits its columns when its name and its path do. *)
Lemma folder_row_fits (new_id cid : uuid) (name path : string)
    (parentId : option uuid) :
  (String.length name <= 500)%nat ->
  (String.length path <= 500)%nat ->
  files_row_error (Files.mk new_id cid name 0 folder None path parentId
                            None None None) = None.
Proof.
  intros Hn Hp. unfold files_row_error, fits_varchar, fits_text. simpl.
  rewrite (proj2 (Z.leb_le (Z.of_nat (String.length name)) 500)) by lia.
  rewrite (proj2 (Z.leb_le (Z.of_nat (String.length path)) 65535)) by lia.
  reflexivity.
Qed.

(** Creating a folder never changes what any client's files add up to, nor
    any row of [clients]: whether the call succeeds or fails, the sum that
    [recalculate_client_storage] converts is the same for every client. *)
Theorem createFolder_keeps_storage_totals (new_id : uuid) (user : session_user)
    (name : string) (parentId : option uuid) (db : DB) (cid : uuid) :
  sum_size_bytes cid (files (snd (createFolder new_id user name parentId db)))
  = sum_size_bytes cid (files db)
  /\ clients (snd (createFolder new_id user name parentId db)) = clients db.
Proof.
  rewrite createFolder_cases.
  destruct (List.find _ (clients db)) as [client|]; [|split; reflexivity].
  destruct (files_row_error _); [split; reflexivity|].
  destruct (parent_exists parentId db); [|split; reflexivity].
  simpl. split; [|reflexivity].
  rewrite sum_size_bytes_snoc. unfold counted. simpl.
  rewrite andb_false_r. simpl. lia.
Qed.

(** A folder, of a name that fits its column, under a parent id that no row
    of [files] has is rejected by the foreign key of [parent_id]: the call
    ends in a database error and nothing is written. *)
Theorem createFolder_missing_parent (new_id : uuid) (user : session_user)
    (name : string) (p : uuid) (db : DB) (client : Clients.row) :
  List.find (fun c => bool_decide (Clients.user_id c = uid user)) (clients db)
  = Some client ->
  (String.length name <= 500)%nat ->
  Forall (fun g => Files.id g <> p) (files db) ->
  createFolder new_id user name (Some p) db
  = (Err (DatabaseError ER_NO_REFERENCED_ROW), db).
Proof.
  intros Hc Hname Hno. rewrite createFolder_cases, Hc.
  assert (upload_path name (Some p) (Clients.id client) db = name) as ->.
  { unfold upload_path, parent_path.
    destruct (List.find _ (files db)) as [g|] eqn:Hf; [|reflexivity].
    exfalso. apply List.find_some in Hf as [Hin Hp].
    apply andb_true_iff in Hp as [H1 _]. apply bool_decide_eq_true_1 in H1.
    rewrite Forall_forall in Hno. apply list_elem_of_In in Hin.
    exact (Hno g Hin H1). }
  rewrite folder_row_fits by exact Hname.
  assert (parent_exists (Some p) db = false) as ->; [|reflexivity].
  unfold parent_exists. apply not_true_is_false. intros Hex.
  apply existsb_exists in Hex as (g & Hin & Hg).
  apply bool_decide_eq_true_1 in Hg. apply list_elem_of_In in Hin.
  rewrite Forall_forall in Hno. exact (Hno g Hin Hg).
Qed.

Lemma createFolder_missing_parent_witness :
  createFolder "d1" sample_user "docs" (Some "nowhere"%string)
    (sample_db (sample_client 10000 0 204800 active) [] ∅ [] ∅)
  = (Err (DatabaseError ER_NO_REFERENCED_ROW),
     sample_db (sample_client 10000 0 204800 active) [] ∅ [] ∅).
Proof.
  apply (createFolder_missing_parent "d1" sample_user "docs" "nowhere"
           (sample_db (sample_client 10000 0 204800 active) [] ∅ [] ∅)
           (sample_client 10000 0 204800 active)).
  - reflexivity.
  - simpl. lia.
  - constructor.
Defined.

(** A folder, of a name that fits its column, under a parent id that exists
    but is no row of the user's own client is created all the same: the
    parent's path is not found, so the folder's path is its bare name, while
    its [parent_id] is the other client's row. *)
Theorem createFolder_parent_of_other_client (new_id : uuid)
    (user : session_user) (name : string) (p : uuid) (db : DB)
    (client : Clients.row) (g : Files.row) :
  List.find (fun c => bool_decide (Clients.user_id c = uid user)) (clients db)
  = Some client ->
  (String.length name <= 500)%nat ->
  g ∈ files db -> Files.id g = p ->
  Forall (fun g' => Files.id g' = p -> Files.client_id g' <> Clients.id client)
         (files db) ->
  exists db',
    createFolder new_id user name (Some p) db = (Ok new_id, db')
    /\ files db'
       = files db
         ++ [Files.mk new_id (Clients.id client) name 0 folder None name
                      (Some p) None None None].
Proof.
  intros Hc Hname Hg Hid Hother. rewrite createFolder_cases, Hc.
  assert (parent_exists (Some p) db = true) as ->.
  { unfold parent_exists. apply existsb_exists. exists g.
    split; [apply list_elem_of_In; exact Hg|].
    apply bool_decide_eq_true_2, Hid. }
  assert (upload_path name (Some p) (Clients.id client) db = name) as ->.
  { unfold upload_path, parent_path.
    destruct (List.find _ (files db)) as [g'|] eqn:Hf; [|reflexivity].
    exfalso. apply List.find_some in Hf as [Hin Hp].
    apply andb_true_iff in Hp as [H1 H2].
    apply bool_decide_eq_true_1 in H1. apply bool_decide_eq_true_1 in H2.
    rewrite Forall_forall in Hother. apply list_elem_of_In in Hin.
    exact (Hother g' Hin H1 H2). }
  rewrite folder_row_fits by exact Hname.
  eexists. split; reflexivity.
Qed.

(** The user of client c1 names, as the parent, a folder of client c2. *)
Lemma createFolder_parent_of_other_client_witness :
  exists db',
    createFolder "d1" sample_user "docs" (Some "x1"%string)
      (sample_db (sample_client 10000 0 204800 active)
         [Files.mk "x1" "c2" "theirs" 0 folder None "theirs" None None None None]
         ∅ [] ∅)
    = (Ok "d1"%string, db')
    /\ files db'
       = [Files.mk "x1" "c2" "theirs" 0 folder None "theirs" None None None None;
          Files.mk "d1" "c1" "docs" 0 folder None "docs" (Some "x1"%string)
                   None None None].
Proof.
  apply (createFolder_parent_of_other_client "d1" sample_user "docs" "x1"
           (sample_db (sample_client 10000 0 204800 active)
              [Files.mk "x1" "c2" "theirs" 0 folder None "theirs" None None None
                        None] ∅ [] ∅)
           (sample_client 10000 0 204800 active)
           (Files.mk "x1" "c2" "theirs" 0 folder None "theirs" None None None
                     None)).
  - reflexivity.
  - simpl. lia.
  - left.
  - reflexivity.
  - repeat constructor. simpl. intros _. discriminate.
Defined.

(** ** [generateS3Key] *)

Lemma starts_with_slash_cons (c : ascii) (s : string) :
  starts_with_slash (String c s) = bool_decide (c = "/"%char).
Proof.
  destruct c as [[] [] [] [] [] [] [] []]; reflexivity.
Qed.

Lemma strip_leading_slashes_cons (c : ascii) (s : string) :
  strip_leading_slashes (String c s)
  = if bool_decide (c = "/"%char) then strip_leading_slashes s else String c s.
Proof.
  destruct c as [[] [] [] [] [] [] [] []]; reflexivity.
Qed.

Lemma collapse_slashes_cons (c : ascii) (s : string) :
  collapse_slashes (String c s)
  = if bool_decide (c = "/"%char)
    then (if starts_with_slash s then collapse_slashes s
          else String "/"%char (collapse_slashes s))
    else String c (collapse_slashes s).
Proof.
  destruct c as [[] [] [] [] [] [] [] []]; try reflexivity.
  destruct s as [|c' s']; [reflexivity|].
  destruct c' as [[] [] [] [] [] [] [] []]; reflexivity.
Qed.

Lemma collapse_slashes_spec (s : string) :
  has_double_slash (collapse_slashes s) = false
  /\ starts_with_slash (collapse_slashes s) = starts_with_slash s.
Proof.
  induction s as [|c s [IH1 IH2]]; [split; reflexivity|].
  rewrite collapse_slashes_cons, (starts_with_slash_cons c s).
  destruct (bool_decide (c = "/"%char)) eqn:Hc.
  - destruct (starts_with_slash s) eqn:Hs.
    + split; [exact IH1|]. rewrite IH2. reflexivity.
    + split; [|reflexivity].
      change (has_double_slash (String "/" (collapse_slashes s)))
        with ((bool_decide ("/"%char = "/"%char)
               && starts_with_slash (collapse_slashes s))
              || has_double_slash (collapse_slashes s)).
      rewrite IH1, IH2. rewrite andb_false_r. reflexivity.
  - split; [|rewrite starts_with_slash_cons; exact Hc].
    change (has_double_slash (String c (collapse_slashes s)))
      with ((bool_decide (c = "/"%char)
             && starts_with_slash (collapse_slashes s))
            || has_double_slash (collapse_slashes s)).
    rewrite Hc, IH1. reflexivity.
Qed.

Lemma strip_leading_slashes_start (s : string) :
  starts_with_slash (strip_leading_slashes s) = false.
Proof.
  induction s as [|c s IH]; [reflexivity|].
  rewrite strip_leading_slashes_cons.
  destruct (bool_decide (c = "/"%char)) eqn:Hc; [exact IH|].
  rewrite starts_with_slash_cons. exact Hc.
Qed.

(** With a bucket prefix, the key that [generateS3Key] builds never holds
    two slashes in a row, whatever slashes the prefix and the path hold. *)
Theorem generateS3Key_no_double_slash (prefix filePath : string) :
  prefix <> ""%string ->
  has_double_slash (generateS3Key (Some prefix) filePath) = false.
Proof.
  intros Hne. unfold generateS3Key. simpl.
  rewrite bool_decide_eq_false_2 by exact Hne.
  apply collapse_slashes_spec.
Qed.

Lemma generateS3Key_no_double_slash_witness :
  has_double_slash (generateS3Key (Some "tenants//c1/"%string) "//a//b.txt")
  = false
  /\ generateS3Key (Some "tenants//c1/"%string) "//a//b.txt"
     = "tenants/c1/a/b.txt"%string.
Proof.
  split; [|reflexivity].
  apply (generateS3Key_no_double_slash "tenants//c1/" "//a//b.txt").
  discriminate.
Defined.

(** Without a bucket prefix (none, or the empty text) the key is the path
    without its leading slashes: it never begins with a slash, and slashes
    inside the path are kept as they are. *)
Theorem generateS3Key_without_prefix (filePath : string) :
  generateS3Key None filePath = strip_leading_slashes filePath
  /\ generateS3Key (Some ""%string) filePath = strip_leading_slashes filePath
  /\ starts_with_slash (generateS3Key None filePath) = false.
Proof.
  split; [reflexivity|]. split; [reflexivity|].
  apply strip_leading_slashes_start.
Qed.
